(** * The emotional core of Nexarion

    A shallow embedding of [sentience/modules/emotional_core_enhanced.py]:
    the classes [EmergentEmotion], [EmotionalMemory] and [EmotionalCore],
    followed by the properties the specification states about them.

    Modelling conventions.
    - A Python [float] is a rational number ([Q]) and arithmetic is exact;
      rounding of binary floating point is outside the model.  Numbers are
      compared with [Qeq] ([==]), as Python compares floats by value.
    - An object that the code mutates in place is a value that the model
      replaces: a method of [EmergentEmotion] returns the new object, a method
      of [EmotionalCore] returns the new core.
    - [time.time()] and the [random] module are inputs: every operation that
      reads the clock or draws a random number takes the value read as an
      argument.
    - A dictionary with a fixed set of string keys (the garden state, a
      history entry, the persisted JSON objects) is a record of optional
      fields, [None] standing for an absent key.  A key that is present holds
      a value of the type [save_state] writes.
    - The file system is a finite map from paths to file contents.
    - [print] is dropped, except that [load_state] returns the message it
      prints, since that message is how it signals the outcome. *)

From Stdlib Require Import QArith Qabs Qminmax Qpower Lqa Lia List Sorted.
From stdpp Require Import gmap strings pretty.
Import ListNotations.

Local Open Scope Q_scope.

(** ** Python builtins *)

Module Py.

(** [x < y] on floats. *)
Definition ltb (x y : Q) : bool := negb (Qle_bool y x).

(** [min(a, b)]: the first argument, unless the second is smaller. *)
Definition min (a b : Q) : Q := if ltb b a then b else a.

(** [max(a, b)]: the first argument, unless the second is larger. *)
Definition max (a b : Q) : Q := if ltb a b then b else a.

Section Selection.
Context {A : Type} (key : A -> Q).

(** The loop of [min(iterable, key=...)]: the running best element is
    replaced only by a strictly smaller one, so the first minimal element
    wins. *)
Fixpoint min_from (best : A) (l : list A) : A :=
  match l with
  | [] => best
  | x :: l' => min_from (if ltb (key x) (key best) then x else best) l'
  end.

(** The loop of [max(iterable, key=...)]: the first maximal element wins. *)
Fixpoint max_from (best : A) (l : list A) : A :=
  match l with
  | [] => best
  | x :: l' => max_from (if ltb (key best) (key x) then x else best) l'
  end.

(** [min(l, key=key)] and [max(l, key=key)]; [None] is the [ValueError]
    that Python raises on an empty sequence. *)
Definition min_by (l : list A) : option A :=
  match l with [] => None | x :: l' => Some (min_from x l') end.

Definition max_by (l : list A) : option A :=
  match l with [] => None | x :: l' => Some (max_from x l') end.
End Selection.

(** [l.remove(x)]: drops the first element equal to [x].  Python raises
    [ValueError] when there is none; the model then returns the list as it
    is, and the one call of the module always finds its element. *)
Fixpoint remove {A : Type} (eqb : A -> A -> bool) (x : A) (l : list A) : list A :=
  match l with
  | [] => []
  | y :: l' => if eqb y x then l' else y :: remove eqb x l'
  end.

(** [l[-n:]]: the last [n] elements, the whole list when it is shorter. *)
Definition last_n {A : Type} (n : nat) (l : list A) : list A :=
  skipn (length l - n) l.

(** Exceptions that the module can meet. *)
Inductive exn : Type :=
| KeyError (key : string)
| AttributeError
| JSONDecodeError
| FileNotFoundError.

(** [FileNotFoundError] is caught by [except FileNotFoundError]; every
    exception above is an instance of [Exception]. *)
Definition is_FileNotFoundError (e : exn) : bool :=
  match e with FileNotFoundError => true | _ => false end.

Inductive result (A : Type) : Type :=
| Ok (a : A)
| Raise (e : exn).
Arguments Ok {A} a.
Arguments Raise {A} e.

(** [d[key]] on a dictionary modelled by its optional field. *)
Definition item {A : Type} (key : string) (field : option A) : result A :=
  match field with
  | Some a => Ok a
  | None => Raise (KeyError key)
  end.

(** [d.get(key, dflt)]. *)
Definition get {A : Type} (field : option A) (dflt : A) : A :=
  match field with
  | Some a => a
  | None => dflt
  end.

End Py.

(** ** class EmergentEmotion *)

Record EmergentEmotion : Type := {
  name : string;
  valence : Q;              (* -1 to 1 *)
  arousal : Q;              (* 0 to 1 *)
  dominance : Q;            (* 0 to 1 *)
  emergence_source : string;
  timestamp : Q;            (* default_factory=time.time *)
  decay_rate : Q            (* = 0.95 *)
}.

(** The constructor call [EmergentEmotion(name=.., valence=.., arousal=..,
    dominance=.., emergence_source=..)]: [now] is what [time.time()]
    returns, and [decay_rate] takes its default. *)
Definition new_emotion (now : Q) (n : string) (v a d : Q) (src : string)
  : EmergentEmotion :=
  {| name := n; valence := v; arousal := a; dominance := d;
     emergence_source := src; timestamp := now; decay_rate := 0.95 |}.

(** The [__eq__] that [@dataclass] generates: all fields, in order. *)
Definition emotion_eqb (x y : EmergentEmotion) : bool :=
  String.eqb (name x) (name y)
  && Qeq_bool (valence x) (valence y)
  && Qeq_bool (arousal x) (arousal y)
  && Qeq_bool (dominance x) (dominance y)
  && String.eqb (emergence_source x) (emergence_source y)
  && Qeq_bool (timestamp x) (timestamp y)
  && Qeq_bool (decay_rate x) (decay_rate y).

(** [EmergentEmotion.update] *)
Definition update (self : EmergentEmotion) (new_valence new_arousal : Q)
  : EmergentEmotion :=
  let inertia := 0.3 in
  let v := valence self * inertia + new_valence * (1 - inertia) in
  let a := arousal self * inertia + new_arousal * (1 - inertia) in
  {| name := name self;
     valence := Py.max (-1) (Py.min 1 v);
     arousal := Py.max 0 (Py.min 1 a);
     dominance := dominance self;
     emergence_source := emergence_source self;
     timestamp := timestamp self;
     decay_rate := decay_rate self |}.

(** [EmergentEmotion.decay] *)
Definition decay (self : EmergentEmotion) : EmergentEmotion :=
  {| name := name self;
     valence := valence self * decay_rate self;
     arousal := arousal self * decay_rate self;
     dominance := dominance self * decay_rate self;
     emergence_source := emergence_source self;
     timestamp := timestamp self;
     decay_rate := decay_rate self |}.

(** ** class EmotionalMemory *)

(** One entry of [emotional_history]: the dictionary with the keys "name",
    "valence", "arousal", "source" and "time". *)
Record memory_dict : Type := {
  m_name : option string;
  m_valence : option Q;
  m_arousal : option Q;
  m_source : option string;
  m_time : option Q
}.

Record EmotionalMemory : Type := {
  memory_weight : Q;                      (* = 0.2 *)
  emotional_history : list memory_dict;
  max_history : nat                       (* = 100 *)
}.

(** [EmotionalMemory()] *)
Definition new_memory : EmotionalMemory :=
  {| memory_weight := 0.2; emotional_history := []; max_history := 100 |}.

(** [EmotionalMemory.add_memory] *)
Definition add_memory (self : EmotionalMemory) (emotion : EmergentEmotion)
  : EmotionalMemory :=
  let memory :=
    {| m_name := Some (name emotion);
       m_valence := Some (valence emotion);
       m_arousal := Some (arousal emotion);
       m_source := Some (emergence_source emotion);
       m_time := Some (timestamp emotion) |} in
  let appended := emotional_history self ++ [memory] in
  {| memory_weight := memory_weight self;
     emotional_history :=
       if (max_history self <? length appended)%nat
       then tl appended                   (* pop(0) *)
       else appended;
     max_history := max_history self |}.

(** [sum(e["valence"] for e in recent)]: starts from 0 and adds from the
    left; the first entry without the key raises [KeyError]. *)
Fixpoint sum_valence (acc : Q) (recent : list memory_dict) : Py.result Q :=
  match recent with
  | [] => Py.Ok acc
  | e :: rest =>
      match Py.item "valence" (m_valence e) with
      | Py.Ok v => sum_valence (acc + v) rest
      | Py.Raise ex => Py.Raise ex
      end
  end.

(** [EmotionalMemory.get_mood_bias] *)
Definition get_mood_bias (self : EmotionalMemory) : Py.result Q :=
  match emotional_history self with
  | [] => Py.Ok 0
  | _ =>
      let recent := Py.last_n 10 (emotional_history self) in
      match recent with
      | [] => Py.Ok 0
      | _ =>
          match sum_valence 0 recent with
          | Py.Ok total =>
              let avg_valence := total / inject_Z (Z.of_nat (length recent)) in
              Py.Ok (avg_valence * memory_weight self)
          | Py.Raise ex => Py.Raise ex
          end
      end
  end.

(** ** class EmotionalCore *)

Record EmotionalCore : Type := {
  current_emotions : list EmergentEmotion;
  memory : EmotionalMemory;
  garden_complexity : Q;
  emotional_entropy : Q
}.

Definition set_current_emotions (es : list EmergentEmotion) (self : EmotionalCore)
  : EmotionalCore :=
  {| current_emotions := es;
     memory := memory self;
     garden_complexity := garden_complexity self;
     emotional_entropy := emotional_entropy self |}.

Definition set_memory (m : EmotionalMemory) (self : EmotionalCore) : EmotionalCore :=
  {| current_emotions := current_emotions self;
     memory := m;
     garden_complexity := garden_complexity self;
     emotional_entropy := emotional_entropy self |}.

(** [EmotionalCore._emerge_initial_emotions]; [t1] and [t2] are the two clock
    readings. *)
Definition _emerge_initial_emotions (t1 t2 : Q) (self : EmotionalCore)
  : EmotionalCore :=
  let curiosity := new_emotion t1 "curiosity" 0.7 0.6 0.4 "system_init" in
  let anxiety := new_emotion t2 "anxiety" (-0.3) 0.4 0.2 "unknown_capabilities" in
  set_current_emotions [curiosity; anxiety] self.

(** [EmotionalCore.__init__]; [entropy] is the value that
    [random.uniform(0.1, 0.3)] returns. *)
Definition init (entropy t1 t2 garden_complexity : Q) : EmotionalCore :=
  _emerge_initial_emotions t1 t2
    {| current_emotions := [];
       memory := new_memory;
       garden_complexity := garden_complexity;
       emotional_entropy := entropy |}.

(** The [for] loop of [_add_or_update_emotion]: the first emotion of the same
    name is blended and the method returns; [None] when the loop runs to its
    end. *)
Fixpoint blend_existing (new_emotion : EmergentEmotion) (l : list EmergentEmotion)
  : option (list EmergentEmotion) :=
  match l with
  | [] => None
  | emotion :: rest =>
      if String.eqb (name emotion) (name new_emotion)
      then Some (update emotion (valence new_emotion) (arousal new_emotion) :: rest)
      else option_map (cons emotion) (blend_existing new_emotion rest)
  end.

(** The tail of [_add_or_update_emotion]: append, then drop the weakest
    emotion when more than five are held.  [min] is called on a list that
    holds at least the new emotion, so its [None] is never met. *)
Definition append_and_limit (new_emotion : EmergentEmotion) (l : list EmergentEmotion)
  : list EmergentEmotion :=
  let appended := l ++ [new_emotion] in
  if (5 <? length appended)%nat then
    match Py.min_by arousal appended with
    | Some weakest => Py.remove emotion_eqb weakest appended
    | None => appended
    end
  else appended.

(** [EmotionalCore._add_or_update_emotion] *)
Definition _add_or_update_emotion (new_emotion : EmergentEmotion) (self : EmotionalCore)
  : EmotionalCore :=
  match blend_existing new_emotion (current_emotions self) with
  | Some blended => set_current_emotions blended self
  | None =>
      set_current_emotions
        (append_and_limit new_emotion (current_emotions self)) self
  end.

(** The dictionary passed to [update_from_garden]. *)
Record garden_state : Type := {
  g_complexity : option Q;
  g_blooms : option Z
}.

(** [EmotionalCore.update_from_garden]; [t_awe] and [t_joy] are the clock
    readings of the two constructor calls. *)
Definition update_from_garden (garden : garden_state) (t_awe t_joy : Q)
    (self : EmotionalCore) : EmotionalCore :=
  let complexity := Py.get (g_complexity garden) 0 in
  let blooms := Py.get (g_blooms garden) 0%Z in
  let self1 :=
    if Py.ltb 0.7 complexity then
      let awe := new_emotion t_awe "awe" 0.8 0.7 0.1 "garden_complexity" in
      _add_or_update_emotion awe self
    else self in
  if (0 <? blooms)%Z then
    let joy_intensity := Py.min (inject_Z blooms * 0.2) 0.9 in
    let joy :=
      new_emotion t_joy "joy" joy_intensity (joy_intensity * 0.8) 0.3
        ("garden_blooms_" +:+ pretty blooms) in
    _add_or_update_emotion joy self1
  else self1.

(** [EmotionalCore.update_from_interaction] *)
Definition update_from_interaction (interaction_type : string) (sentiment now : Q)
    (self : EmotionalCore) : EmotionalCore :=
  if String.eqb interaction_type "query" then
    let emotion :=
      if Py.ltb (Qabs sentiment) 0.3 then
        new_emotion now "contemplation" 0.4 0.3 0.5 "neutral_query"
      else if Py.ltb 0.3 sentiment then
        new_emotion now "engagement" 0.6 0.5 0.4 "positive_interaction"
      else
        new_emotion now "defensive" (-0.4) 0.6 0.7 "negative_interaction" in
    _add_or_update_emotion emotion self
  else self.

(** [EmotionalCore.get_dominant_emotion] *)
Definition score (e : EmergentEmotion) : Q :=
  Qabs (valence e) * 0.6 + arousal e * 0.4.

Definition get_dominant_emotion (self : EmotionalCore) : option EmergentEmotion :=
  match current_emotions self with
  | [] => None
  | _ => Py.max_by score (current_emotions self)
  end.

(** [EmotionalCore._add_random_fluctuation]; [pick] is the index that
    [random.choice] draws in [fluctuation_types]. *)
Definition fluctuation_types : list string :=
  ["whimsy"; "melancholy"; "excitement"; "pensiveness"].

Definition _add_random_fluctuation (pick : nat) (now : Q) (self : EmotionalCore)
  : EmotionalCore :=
  let chosen :=
    nth (pick mod length fluctuation_types) fluctuation_types "pensiveness" in
  let emotion :=
    if String.eqb chosen "whimsy" then
      new_emotion now "whimsy" 0.6 0.4 0.2 "random_fluctuation"
    else if String.eqb chosen "melancholy" then
      new_emotion now "melancholy" (-0.4) 0.2 0.1 "random_fluctuation"
    else if String.eqb chosen "excitement" then
      new_emotion now "excitement" 0.8 0.9 0.6 "random_fluctuation"
    else
      new_emotion now "pensiveness" 0.1 0.2 0.3 "random_fluctuation" in
  _add_or_update_emotion emotion self.

(** The test of the list comprehension that ends [process_emotional_cycle]. *)
Definition lingers (e : EmergentEmotion) : bool :=
  Py.ltb 0.05 (Qabs (valence e)) || Py.ltb 0.05 (arousal e).

(** [EmotionalCore.process_emotional_cycle]; [roll] is what [random.random()]
    returns, [pick] and [now] feed [_add_random_fluctuation] when it runs. *)
Definition process_emotional_cycle (roll : Q) (pick : nat) (now : Q)
    (self : EmotionalCore) : EmotionalCore :=
  let self1 := set_current_emotions (map decay (current_emotions self)) self in
  let self2 :=
    if Py.ltb roll 0.1 then _add_random_fluctuation pick now self1 else self1 in
  let self3 :=
    match get_dominant_emotion self2 with
    | Some dominant => set_memory (add_memory (memory self2) dominant) self2
    | None => self2
    end in
  set_current_emotions (List.filter lingers (current_emotions self3)) self3.

(** The dictionary that [get_emotional_state] returns. *)
Record emotion_view : Type := {
  v_name : string;
  v_valence : Q;
  v_arousal : Q;
  v_source : string
}.

Record emotional_state : Type := {
  s_mood : string;
  s_energy : string;
  s_dominant_emotion : string;
  s_valence_bias : Q;
  s_emotional_entropy : Q;
  s_active_emotions : nat;
  s_emotions : list emotion_view
}.

Definition view (e : EmergentEmotion) : emotion_view :=
  {| v_name := name e; v_valence := valence e; v_arousal := arousal e;
     v_source := emergence_source e |}.

(** [EmotionalCore.get_emotional_state]; it raises what [get_mood_bias]
    raises. *)
Definition get_emotional_state (self : EmotionalCore) : Py.result emotional_state :=
  let dominant := get_dominant_emotion self in
  let mood :=
    match dominant with
    | Some d => if Py.ltb 0 (valence d) then "positive" else "negative"
    | None => "neutral"
    end in
  let energy :=
    match dominant with
    | Some d =>
        if Py.ltb 0.6 (arousal d) then "high"
        else if Py.ltb 0.3 (arousal d) then "medium" else "low"
    | None => "low"
    end in
  match get_mood_bias (memory self) with
  | Py.Raise ex => Py.Raise ex
  | Py.Ok bias =>
      Py.Ok
        {| s_mood := mood;
           s_energy := energy;
           s_dominant_emotion :=
             match dominant with Some d => name d | None => "neutral" end;
           s_valence_bias := bias;
           s_emotional_entropy := emotional_entropy self;
           s_active_emotions := length (current_emotions self);
           s_emotions := map view (current_emotions self) |}
  end.

(** ** Persistence *)

(** An element of "current_emotions" in the saved file. *)
Record emotion_dict : Type := {
  j_name : option string;
  j_valence : option Q;
  j_arousal : option Q;
  j_dominance : option Q;
  j_source : option string;
  j_timestamp : option Q
}.

(** The JSON object that [save_state] dumps. *)
Record state_dict : Type := {
  j_current_emotions : option (list emotion_dict);
  j_memory_history : option (list memory_dict);
  j_emotional_entropy : option Q;
  j_saved_at : option Q
}.

(** What [json.load] makes of a file: an object, some other JSON value (a
    list, a number, ...), or a [JSONDecodeError]. *)
Inductive file : Type :=
| JsonObject (state : state_dict)
| JsonOther
| NotJson.

(** [EmotionalCore.save_state]; [saved_entry] is the dictionary built for
    each emotion, [now] the clock reading stored under "saved_at".  The file
    is taken to be writable. *)
Definition saved_entry (e : EmergentEmotion) : emotion_dict :=
  {| j_name := Some (name e);
     j_valence := Some (valence e);
     j_arousal := Some (arousal e);
     j_dominance := Some (dominance e);
     j_source := Some (emergence_source e);
     j_timestamp := Some (timestamp e) |}.

Definition save_state (filepath : string) (now : Q) (self : EmotionalCore)
    (fs : gmap string file) : gmap string file :=
  let state :=
    {| j_current_emotions := Some (map saved_entry (current_emotions self));
       j_memory_history :=
         Some (Py.last_n 20 (emotional_history (memory self)));
       j_emotional_entropy := Some (emotional_entropy self);
       j_saved_at := Some now |} in
  <[filepath := JsonObject state]> fs.

(** Statements of a method: they transform the core and either go on with a
    value or raise.  What was assigned before a [raise] stays assigned. *)
Definition M (A : Type) : Type := EmotionalCore -> EmotionalCore * Py.result A.

Definition ret {A : Type} (a : A) : M A := fun self => (self, Py.Ok a).

Definition bind {A B : Type} (m : M A) (k : A -> M B) : M B :=
  fun self =>
    match m self with
    | (self', Py.Ok a) => k a self'
    | (self', Py.Raise e) => (self', Py.Raise e)
    end.

Definition eval {A : Type} (r : Py.result A) : M A :=
  fun self => (self, r).

Definition assign (f : EmotionalCore -> EmotionalCore) : M unit :=
  fun self => (f self, Py.Ok tt).

#[global] Instance M_ret : MRet M := @ret.
#[global] Instance M_bind : MBind M := fun A B k m => bind m k.

(** [for x in l: body]. *)
Fixpoint for_each {A : Type} (l : list A) (body : A -> M unit) : M unit :=
  match l with
  | [] => mret tt
  | x :: rest => body x;; for_each rest body
  end.

(** [try: body  except FileNotFoundError: h1  except Exception as e: h2]. *)
Definition try_except {A : Type} (body : M A) (not_found : M A)
    (other : Py.exn -> M A) : M A :=
  fun self =>
    match body self with
    | (self', Py.Ok a) => (self', Py.Ok a)
    | (self', Py.Raise e) =>
        if Py.is_FileNotFoundError e then not_found self' else other e self'
    end.

(** [open(filepath, 'r')] followed by [json.load]. *)
Definition json_load (filepath : string) (fs : gmap string file) : Py.result file :=
  match fs !! filepath with
  | None => Py.Raise Py.FileNotFoundError
  | Some NotJson => Py.Raise Py.JSONDecodeError
  | Some doc => Py.Ok doc
  end.

(** [state.get(key, [])] on what was loaded: only an object has [get]. *)
Definition state_get {A : Type} (doc : file) (field : state_dict -> option (list A))
  : Py.result (list A) :=
  match doc with
  | JsonObject state => Py.Ok (Py.get (field state) [])
  | _ => Py.Raise Py.AttributeError
  end.

(** The body of the loop that restores the emotions.  The clock reading that
    the constructor takes is overwritten by the stored timestamp before
    anyone sees it, so the emotion is built with the stored one. *)
Definition restore_emotion (e_data : emotion_dict) : M unit :=
  n ← eval (Py.item "name" (j_name e_data));
  v ← eval (Py.item "valence" (j_valence e_data));
  a ← eval (Py.item "arousal" (j_arousal e_data));
  let d := Py.get (j_dominance e_data) 0.5 in
  src ← eval (Py.item "source" (j_source e_data));
  t ← eval (Py.item "timestamp" (j_timestamp e_data));
  let emotion := new_emotion t n v a d src in
  assign (fun self => set_current_emotions (current_emotions self ++ [emotion]) self).

Definition set_history (h : list memory_dict) (self : EmotionalCore) : EmotionalCore :=
  set_memory
    {| memory_weight := memory_weight (memory self);
       emotional_history := h;
       max_history := max_history (memory self) |} self.

(** What [load_state] prints. *)
Inductive load_message : Type :=
| Loaded (filepath : string)        (* "Loaded emotional state from ..." *)
| NoSavedState                      (* "No saved emotional state found, starting fresh" *)
| LoadError (e : Py.exn).           (* "Error loading emotional state: ..." *)

(** The [try] block of [load_state]. *)
Definition load_state_body (filepath : string) (fs : gmap string file)
  : M load_message :=
  state ← eval (json_load filepath fs);
  assign (set_current_emotions []);;
  saved ← eval (state_get state j_current_emotions);
  for_each saved restore_emotion;;
  history ← eval (state_get state j_memory_history);
  assign (set_history history);;
  mret (Loaded filepath).

(** [EmotionalCore.load_state] *)
Definition load_state (filepath : string) (fs : gmap string file) : M load_message :=
  try_except (load_state_body filepath fs)
    (mret NoSavedState)
    (fun e => mret (LoadError e)).

(** ** Vocabulary of the specification *)

(** The declared ranges of the three numeric fields of an impulse. *)
Definition in_bounds (e : EmergentEmotion) : Prop :=
  (-1 <= valence e /\ valence e <= 1)
  /\ (0 <= arousal e /\ arousal e <= 1)
  /\ (0 <= dominance e /\ dominance e <= 1).

(** No code path sets [decay_rate], [memory_weight] or [max_history]: they
    keep the defaults of their dataclasses. *)
Definition default_rate (e : EmergentEmotion) : Prop := decay_rate e = 0.95.

Definition default_memory (m : EmotionalMemory) : Prop :=
  memory_weight m = 0.2 /\ max_history m = 100%nat.

Definition bounded (self : EmotionalCore) : Prop :=
  Forall in_bounds (current_emotions self).

Definition default_rates (self : EmotionalCore) : Prop :=
  Forall default_rate (current_emotions self).

(** The score of the selection rule, as the specification writes it. *)
Definition selection_score (e : EmergentEmotion) : Q :=
  0.6 * Qabs (valence e) + 0.4 * arousal e.

(** The mutating operations of the engine; [ApplyStimulus] is
    [_add_or_update_emotion]. *)
Inductive mutation : Type :=
| ApplyStimulus (stimulus : EmergentEmotion)
| DecayCycle (roll : Q) (pick : nat) (now : Q)
| RecordFromGarden (garden : garden_state) (t_awe t_joy : Q)
| RecordFromInteraction (interaction_type : string) (sentiment now : Q).

Definition mutate (m : mutation) (self : EmotionalCore) : EmotionalCore :=
  match m with
  | ApplyStimulus stimulus => _add_or_update_emotion stimulus self
  | DecayCycle roll pick now => process_emotional_cycle roll pick now self
  | RecordFromGarden garden t_awe t_joy => update_from_garden garden t_awe t_joy self
  | RecordFromInteraction interaction_type sentiment now =>
      update_from_interaction interaction_type sentiment now self
  end.

Definition mutate_all (ms : list mutation) (self : EmotionalCore) : EmotionalCore :=
  fold_left (fun c m => mutate m c) ms self.

(** A stimulus is valid when it respects the declared ranges. *)
Definition valid_stimulus (m : mutation) : Prop :=
  match m with
  | ApplyStimulus stimulus => in_bounds stimulus /\ default_rate stimulus
  | _ => True
  end.

(** What every emotion built by the module satisfies. *)
Definition sound (e : EmergentEmotion) : Prop := in_bounds e /\ default_rate e.

(** The impulses are listed in the order of their creation. *)
Definition chronological (l : list EmergentEmotion) : Prop :=
  StronglySorted (fun x y => timestamp x <= timestamp y) l.

(** Blending with inertia 0.3, as the specification writes it: 30% of the
    prior value and 70% of the new one, kept within [lo, hi]. *)
Definition blended (lo hi prior new : Q) : Q :=
  Qmax lo (Qmin hi (0.3 * prior + 0.7 * new)).

(** Consecutive decay cycles, one per triple of draws (the roll of
    [random.random()], the pick of [random.choice], the clock). *)
Definition cycles (draws : list (Q * nat * Q)) (self : EmotionalCore) : EmotionalCore :=
  fold_left
    (fun c d => process_emotional_cycle (fst (fst d)) (snd (fst d)) (snd d) c)
    draws self.

(** The fluctuation branch runs when the roll is below 0.1. *)
Definition never_fires (draws : list (Q * nat * Q)) : Prop :=
  Forall (fun d => 0.1 <= fst (fst d)) draws.

(** The impulses that are still held after [n] cycles. *)
Definition survivors (n : nat) (l : list EmergentEmotion) : list EmergentEmotion :=
  match n with
  | O => l
  | S _ => List.filter (fun e => lingers (Nat.iter n decay e)) l
  end.

(** An impulse is negligible when both its valence and its arousal are within
    0.05 of zero. *)
Definition negligible (e : EmergentEmotion) : Prop :=
  Qabs (valence e) <= 0.05 /\ arousal e <= 0.05.

(** The snapshot of an impulse that the history keeps. *)
Definition snapshot_of (e : EmergentEmotion) : memory_dict :=
  {| m_name := Some (name e); m_valence := Some (valence e);
     m_arousal := Some (arousal e); m_source := Some (emergence_source e);
     m_time := Some (timestamp e) |}.

(** The impulse that a saved entry stands for: only "dominance" has a
    default; [None] when one of the other keys is missing. *)
Definition restored (e_data : emotion_dict) : option EmergentEmotion :=
  match j_name e_data, j_valence e_data, j_arousal e_data,
        j_source e_data, j_timestamp e_data with
  | Some n, Some v, Some a, Some src, Some t =>
      Some (new_emotion t n v a (Py.get (j_dominance e_data) 0.5) src)
  | _, _, _, _, _ => None
  end.

(** The first key that an incomplete entry lacks, in the order in which
    [load_state] reads them. *)
Definition first_missing (e_data : emotion_dict) : string :=
  match j_name e_data, j_valence e_data, j_arousal e_data, j_source e_data with
  | None, _, _, _ => "name"
  | _, None, _, _ => "valence"
  | _, _, None, _ => "arousal"
  | _, _, _, None => "source"
  | _, _, _, _ => "timestamp"
  end.

(** The saved entries are restored in order, up to the first incomplete one:
    the impulses restored, and the key that stopped the restoration. *)
Fixpoint restore_all (saved : list emotion_dict)
  : list EmergentEmotion * option string :=
  match saved with
  | [] => ([], None)
  | e_data :: rest =>
      match restored e_data with
      | Some emotion =>
          (emotion :: fst (restore_all rest), snd (restore_all rest))
      | None => ([], Some (first_missing e_data))
      end
  end.

(** The mood bias, as the specification writes it: the mean valence of the
    last ten entries of the history, times the memory weight. *)
Definition last_entries {A : Type} (n : nat) (l : list A) : list A :=
  rev (firstn n (rev l)).

Definition mean (l : list Q) : Q :=
  fold_right Qplus 0 l / inject_Z (Z.of_nat (length l)).

(** A snapshot with its entropy replaced. *)
Definition with_entropy (u : Q) (r : Py.result emotional_state)
  : Py.result emotional_state :=
  match r with
  | Py.Ok s =>
      Py.Ok
        {| s_mood := s_mood s; s_energy := s_energy s;
           s_dominant_emotion := s_dominant_emotion s;
           s_valence_bias := s_valence_bias s;
           s_emotional_entropy := u;
           s_active_emotions := s_active_emotions s;
           s_emotions := s_emotions s |}
  | Py.Raise e => Py.Raise e
  end.

(** The states of a session: the core is constructed, then mutated and
    loaded into; a stimulus applied from outside is built by the constructor,
    hence with the default decay rate. *)
Definition constructed (m : mutation) : Prop :=
  match m with
  | ApplyStimulus stimulus => default_rate stimulus
  | _ => True
  end.

Inductive reachable : EmotionalCore -> Prop :=
| reachable_init (u t1 t2 g : Q) : reachable (init u t1 t2 g)
| reachable_mutate (m : mutation) (c : EmotionalCore) :
    constructed m -> reachable c -> reachable (mutate m c)
| reachable_load (filepath : string) (fs : gmap string file) (c : EmotionalCore) :
    reachable c -> reachable (fst (load_state filepath fs c)).

(** ** The rest of the module *)

(** [sep.join(l)] *)
Fixpoint py_join (sep : string) (l : list string) : string :=
  match l with
  | [] => EmptyString
  | [x] => x
  | x :: rest => String.append x (String.append sep (py_join sep rest))
  end.

(** [int(x)] of a float: the fraction is dropped, towards zero. *)
Definition py_int (x : Q) : Z := Z.quot (Qnum x) (Z.pos (Qden x)).

(** [EmotionalCore.influence_response]; it raises what [get_emotional_state]
    raises. *)
Definition influence_response (base_response : string) (self : EmotionalCore)
  : Py.result string :=
  match get_emotional_state self with
  | Py.Raise ex => Py.Raise ex
  | Py.Ok state =>
      let mood := s_mood state in
      let energy := s_energy state in
      if String.eqb mood "neutral" && String.eqb energy "low" then
        Py.Ok base_response
      else
        let modifiers0 : list string := [] in
        let modifiers1 :=
          if String.eqb mood "positive" then
            modifiers0 ++ ["with a touch of optimism"]
          else if String.eqb mood "negative" then
            modifiers0 ++ ["with cautious consideration"]
          else modifiers0 in
        let modifiers2 :=
          if String.eqb energy "high" then modifiers1 ++ ["energetically"]
          else if String.eqb energy "low" then modifiers1 ++ ["reflectively"]
          else modifiers1 in
        match modifiers2 with
        | [] => Py.Ok base_response
        | _ =>
            Py.Ok (String.append base_response
                     (String.append " ["
                        (String.append (py_join ", " modifiers2) "]")))
        end
  end.

(** ** class UnifiedNexarion (garden/roots/unified_nexarion.py and its
    variants), as far as it drives the emotional core *)

Module UnifiedNexarion.

Record t : Type := {
  emotional_core : option EmotionalCore;
  garden_complexity : Q
}.

(** [UnifiedNexarion.__init__]: [imported] tells whether the import of
    [EmotionalCore] succeeded, [state_file] is the path of the saved state.
    The [try] around [load_state] only prints; the snapshot taken for the
    greeting is outside it, so what it raises leaves the constructor. *)
Definition new (imported : bool) (entropy t1 t2 : Q) (state_file : string)
    (fs : gmap string file) : Py.result t :=
  if imported then
    let core := init entropy t1 t2 0 in
    let loaded := fst (load_state state_file fs core) in
    match get_emotional_state loaded with
    | Py.Raise ex => Py.Raise ex
    | Py.Ok initial_state =>
        Py.Ok {| emotional_core := Some loaded; garden_complexity := 0 |}
    end
  else Py.Ok {| emotional_core := None; garden_complexity := 0 |}.

(** [UnifiedNexarion.update_from_garden]: the garden state handed to the core
    has [int(complexity * 10)] blooms, and a decay cycle follows. *)
Definition update_from_garden (complexity t_awe t_joy roll : Q) (pick : nat)
    (now : Q) (self : t) : t :=
  {| emotional_core :=
       match emotional_core self with
       | Some core =>
           let garden :=
             {| g_complexity := Some complexity;
                g_blooms := Some (py_int (complexity * 10)) |} in
           Some (process_emotional_cycle roll pick now
                   (update_from_garden garden t_awe t_joy core))
       | None => None
       end;
     garden_complexity := complexity |}.

End UnifiedNexarion.

(** ** Further vocabulary *)

(** Every entry of the history carries a valence, as the entries written by
    [add_memory] do. *)
Definition recorded (h : list memory_dict) : Prop :=
  Forall (fun m => m_valence m <> None) h.

(** The states of a session that loads only files written by [save_state]:
    construction, mutations with any stimulus, and loading such a file. *)
Inductive in_session : EmotionalCore -> Prop :=
| in_session_init (u t1 t2 g : Q) : in_session (init u t1 t2 g)
| in_session_mutate (m : mutation) (c : EmotionalCore) :
    in_session c -> in_session (mutate m c)
| in_session_load (filepath : string) (now : Q) (fs : gmap string file)
    (saver c : EmotionalCore) :
    in_session saver -> in_session c ->
    in_session (fst (load_state filepath (save_state filepath now saver fs) c)).

(** The clock readings of a mutation are not before the creation of any
    impulse held, and are in order. *)
Definition timely (m : mutation) (self : EmotionalCore) : Prop :=
  let after t := Forall (fun e => timestamp e <= t) (current_emotions self) in
  match m with
  | ApplyStimulus stimulus => after (timestamp stimulus)
  | DecayCycle _ _ now => after now
  | RecordFromGarden _ t_awe t_joy => after t_awe /\ t_awe <= t_joy
  | RecordFromInteraction _ _ now => after now
  end.

(** The same stimulus blended [k] times into an emotion. *)
Definition blend_times (k : nat) (v a : Q) (e : EmergentEmotion) : EmergentEmotion :=
  Nat.iter k (fun x => update x v a) e.

(** The bracketed remarks that [influence_response] can append. *)
Definition remarks : list string :=
  [" [with a touch of optimism, energetically]";
   " [with a touch of optimism]";
   " [with a touch of optimism, reflectively]";
   " [with cautious consideration, energetically]";
   " [with cautious consideration]";
   " [with cautious consideration, reflectively]"].

(** A property of the list of impulses admits, at the end of [l], any emotion
    created at time [t] whose name [l] does not hold. *)
Definition fits (Good : list EmergentEmotion -> Prop) (t : Q)
    (l : list EmergentEmotion) : Prop :=
  forall s, timestamp s = t -> blend_existing s l = None -> Good (l ++ [s]).

(** The names under which a mutation can create an impulse. *)
Definition names_of (m : mutation) : list string :=
  match m with
  | ApplyStimulus stimulus => [name stimulus]
  | DecayCycle _ _ _ => fluctuation_types
  | RecordFromGarden _ _ _ => ["awe"; "joy"]
  | RecordFromInteraction _ _ _ => ["contemplation"; "engagement"; "defensive"]
  end.

(** * Properties *)

(** ** Comparisons, [min] and [max] *)

Lemma ltb_lt (x y : Q) : Py.ltb x y = true <-> x < y.
Proof.
  unfold Py.ltb. rewrite negb_true_iff. split.
  - intros H. apply Qnot_le_lt. intros Hle.
    apply Qle_bool_iff in Hle. congruence.
  - intros H. destruct (Qle_bool y x) eqn:E; [|reflexivity].
    apply Qle_bool_iff in E. lra.
Qed.

Lemma ltb_ge (x y : Q) : Py.ltb x y = false <-> y <= x.
Proof.
  unfold Py.ltb. rewrite negb_false_iff. apply Qle_bool_iff.
Qed.

(** Turns every comparison of the goal into an inequality of [Q]. *)
Ltac ltb_split a b :=
  let E := fresh "E" in
  destruct (Py.ltb a b) eqn:E; [apply ltb_lt in E | apply ltb_ge in E].

Ltac ltb_cases :=
  repeat match goal with
  | |- context [Py.ltb ?a ?b] => ltb_split a b
  | _ : context [Py.ltb ?a ?b] |- _ => ltb_split a b
  end.

Lemma clamp_range (lo hi v : Q) :
  lo <= hi -> lo <= Py.max lo (Py.min hi v) /\ Py.max lo (Py.min hi v) <= hi.
Proof.
  intros Hlh. unfold Py.max, Py.min. ltb_cases; lra.
Qed.

Lemma clamp_inside (lo hi v : Q) :
  lo <= v -> v <= hi -> Py.max lo (Py.min hi v) == v.
Proof.
  intros Hlo Hhi. unfold Py.max, Py.min. ltb_cases; lra.
Qed.

Lemma py_min_Qmin (a b : Q) : Py.min a b == Qmin a b.
Proof.
  unfold Py.min. ltb_cases.
  - rewrite Q.min_r; [reflexivity | lra].
  - rewrite Q.min_l; [reflexivity | lra].
Qed.

(** ** Selection by key *)

Section SelectionFacts.
Context {A : Type} (key : A -> Q).

Lemma max_from_In (l : list A) (best : A) :
  In (Py.max_from key best l) (best :: l).
Proof.
  revert best. induction l as [|x l IH]; intros best; simpl.
  - now left.
  - destruct (IH (if Py.ltb (key best) (key x) then x else best)) as [H|H].
    + destruct (Py.ltb (key best) (key x)); rewrite <- H; auto.
    + auto.
Qed.

Lemma max_from_ge_best (l : list A) (best : A) :
  key best <= key (Py.max_from key best l).
Proof.
  revert best. induction l as [|x l IH]; intros best; simpl.
  - lra.
  - specialize (IH (if Py.ltb (key best) (key x) then x else best)).
    revert IH. ltb_cases; lra.
Qed.

Lemma max_from_upper (l : list A) (best x : A) :
  In x (best :: l) -> key x <= key (Py.max_from key best l).
Proof.
  revert best. induction l as [|y l IH]; intros best Hin.
  - destruct Hin as [<-|[]]. simpl. lra.
  - simpl. set (b := if Py.ltb (key best) (key y) then y else best).
    assert (Hb : key best <= key b /\ key y <= key b).
    { subst b. ltb_cases; lra. }
    destruct Hin as [<-|[<-|Hin]].
    + pose proof (max_from_ge_best l b). lra.
    + pose proof (max_from_ge_best l b). lra.
    + apply IH. now right.
Qed.

Lemma min_from_In (l : list A) (best : A) :
  In (Py.min_from key best l) (best :: l).
Proof.
  revert best. induction l as [|x l IH]; intros best; simpl.
  - now left.
  - destruct (IH (if Py.ltb (key x) (key best) then x else best)) as [H|H].
    + destruct (Py.ltb (key x) (key best)); rewrite <- H; auto.
    + auto.
Qed.
End SelectionFacts.

Lemma selection_score_score (e : EmergentEmotion) : selection_score e == score e.
Proof. unfold selection_score, score. ring. Qed.

(** ** The dominant impulse *)

Lemma dominant_none_iff (self : EmotionalCore) :
  get_dominant_emotion self = None <-> current_emotions self = [].
Proof.
  unfold get_dominant_emotion.
  destruct (current_emotions self); simpl; split; congruence.
Qed.

(** C4. [get_dominant_emotion] returns [None] exactly on an empty set of
    impulses; otherwise it returns one of the current impulses, and that
    impulse maximises [0.6 * |valence| + 0.4 * arousal] over all of them.
    Over joy (0.8, 0.7) and fear (-0.2, 0.9), in either order, it selects joy,
    whose score is 0.76 against 0.48. *)
Theorem dominant_impulse_maximises_score :
  (forall self : EmotionalCore,
      (get_dominant_emotion self = None <-> current_emotions self = [])
      /\ match get_dominant_emotion self with
         | None => current_emotions self = []
         | Some d =>
             In d (current_emotions self)
             /\ Forall (fun e => selection_score e <= selection_score d)
                  (current_emotions self)
         end)
  /\ (forall (self : EmotionalCore) (t1 t2 d1 d2 : Q) (s1 s2 : string),
        let joy := new_emotion t1 "joy" 0.8 0.7 d1 s1 in
        let fear := new_emotion t2 "fear" (-0.2) 0.9 d2 s2 in
        get_dominant_emotion (set_current_emotions [joy; fear] self) = Some joy
        /\ get_dominant_emotion (set_current_emotions [fear; joy] self) = Some joy
        /\ selection_score joy == 0.76
        /\ selection_score fear == 0.48).
Proof.
  split.
  - intros self. split; [apply dominant_none_iff|].
    unfold get_dominant_emotion.
    destruct (current_emotions self) as [|x l] eqn:E; [reflexivity|].
    simpl. split.
    + apply (max_from_In score).
    + apply List.Forall_forall. intros e He.
      rewrite !selection_score_score. now apply max_from_upper.
  - intros self t1 t2 d1 d2 s1 s2 joy fear.
    repeat split; reflexivity.
Qed.

(** ** Bounds of the numeric fields *)

Lemma update_clamps (e : EmergentEmotion) (v a : Q) :
  (-1 <= valence (update e v a) /\ valence (update e v a) <= 1)
  /\ (0 <= arousal (update e v a) /\ arousal (update e v a) <= 1).
Proof.
  unfold update; simpl. split; apply clamp_range; lra.
Qed.

(** A property of emotions that blending and decay preserve, and that holds
    of every emotion constructed with values in range, is preserved by every
    operation of the core. *)
Section Preservation.
Context (P : EmergentEmotion -> Prop).
Hypothesis P_update : forall e v a, P e -> P (update e v a).
Hypothesis P_decay : forall e, P e -> P (decay e).
Hypothesis P_new :
  forall now n v a d src,
    -1 <= v <= 1 -> 0 <= a <= 1 -> 0 <= d <= 1 -> P (new_emotion now n v a d src).

Lemma blend_existing_Forall (stimulus : EmergentEmotion) (l l' : list EmergentEmotion) :
  Forall P l -> blend_existing stimulus l = Some l' -> Forall P l'.
Proof.
  revert l'. induction l as [|e l IH]; intros l' Hl; simpl; [discriminate|].
  inversion Hl as [|? ? He Hl']; subst.
  destruct (String.eqb (name e) (name stimulus)).
  - intros [= <-]. constructor; auto.
  - destruct (blend_existing stimulus l) as [r|]; simpl; [|discriminate].
    intros [= <-]. constructor; auto.
Qed.

Lemma remove_Forall (w : EmergentEmotion) (l : list EmergentEmotion) :
  Forall P l -> Forall P (Py.remove emotion_eqb w l).
Proof.
  induction 1 as [|e l He Hl IH]; simpl; [constructor|].
  destruct (emotion_eqb e w); [assumption | now constructor].
Qed.

Lemma append_and_limit_Forall (stimulus : EmergentEmotion) (l : list EmergentEmotion) :
  P stimulus -> Forall P l -> Forall P (append_and_limit stimulus l).
Proof.
  intros Hs Hl. unfold append_and_limit.
  assert (Happ : Forall P (l ++ [stimulus])).
  { apply Forall_app. split; [assumption | now constructor]. }
  destruct (5 <? length (l ++ [stimulus]))%nat; [|assumption].
  destruct (Py.min_by arousal (l ++ [stimulus])); [|assumption].
  now apply remove_Forall.
Qed.

Lemma add_or_update_Forall (stimulus : EmergentEmotion) (self : EmotionalCore) :
  P stimulus -> Forall P (current_emotions self) ->
  Forall P (current_emotions (_add_or_update_emotion stimulus self)).
Proof.
  intros Hs Hl. unfold _add_or_update_emotion.
  destruct (blend_existing stimulus (current_emotions self)) as [l'|] eqn:E; simpl.
  - eapply blend_existing_Forall; eauto.
  - now apply append_and_limit_Forall.
Qed.

Lemma garden_Forall (garden : garden_state) (t_awe t_joy : Q) (self : EmotionalCore) :
  Forall P (current_emotions self) ->
  Forall P (current_emotions (update_from_garden garden t_awe t_joy self)).
Proof.
  intros H. unfold update_from_garden.
  set (blooms := Py.get (g_blooms garden) 0%Z).
  assert (H1 : Forall P (current_emotions
            (if Py.ltb 0.7 (Py.get (g_complexity garden) 0)
             then _add_or_update_emotion
                    (new_emotion t_awe "awe" 0.8 0.7 0.1 "garden_complexity") self
             else self))).
  { destruct (Py.ltb 0.7 _); [|assumption].
    apply add_or_update_Forall; [|assumption].
    apply P_new; lra. }
  destruct (0 <? blooms)%Z eqn:Eb; [|assumption].
  apply Z.ltb_lt in Eb. rewrite Zlt_Qlt in Eb.
  change (inject_Z 0) with 0 in Eb.
  apply add_or_update_Forall; [|assumption].
  apply P_new; unfold Py.min; ltb_cases; lra.
Qed.

Lemma interaction_Forall (kind : string) (sentiment now : Q) (self : EmotionalCore) :
  Forall P (current_emotions self) ->
  Forall P (current_emotions (update_from_interaction kind sentiment now self)).
Proof.
  intros H. unfold update_from_interaction.
  destruct (String.eqb kind "query"); [|assumption].
  apply add_or_update_Forall; [|assumption].
  destruct (Py.ltb (Qabs sentiment) 0.3); [|destruct (Py.ltb 0.3 sentiment)];
    apply P_new; lra.
Qed.

Lemma fluctuation_Forall (pick : nat) (now : Q) (self : EmotionalCore) :
  Forall P (current_emotions self) ->
  Forall P (current_emotions (_add_random_fluctuation pick now self)).
Proof.
  intros H. unfold _add_random_fluctuation.
  apply add_or_update_Forall; [|assumption].
  repeat match goal with
         | |- context [if ?b then _ else _] => destruct b
         end; apply P_new; lra.
Qed.

Lemma cycle_Forall (roll : Q) (pick : nat) (now : Q) (self : EmotionalCore) :
  Forall P (current_emotions self) ->
  Forall P (current_emotions (process_emotional_cycle roll pick now self)).
Proof.
  intros H. unfold process_emotional_cycle.
  set (self1 := set_current_emotions (map decay (current_emotions self)) self).
  assert (H1 : Forall P (current_emotions self1)).
  { simpl. apply List.Forall_forall. intros e He.
    apply in_map_iff in He as (e0 & <- & He0).
    apply P_decay. revert e0 He0. now apply List.Forall_forall. }
  set (self2 := if Py.ltb roll 0.1 then _ else _).
  assert (H2 : Forall P (current_emotions self2)).
  { subst self2. destruct (Py.ltb roll 0.1); [|assumption].
    now apply fluctuation_Forall. }
  clearbody self2. clear self1 H1.
  destruct (get_dominant_emotion self2); simpl;
    apply List.Forall_forall; intros x Hx;
    apply filter_In in Hx as [Hx _];
    revert x Hx; now apply List.Forall_forall.
Qed.

Lemma mutate_Forall (m : mutation) (self : EmotionalCore) :
  match m with ApplyStimulus stimulus => P stimulus | _ => True end ->
  Forall P (current_emotions self) ->
  Forall P (current_emotions (mutate m self)).
Proof.
  destruct m; simpl; intros Hm H.
  - now apply add_or_update_Forall.
  - now apply cycle_Forall.
  - now apply garden_Forall.
  - now apply interaction_Forall.
Qed.
End Preservation.

Lemma sound_update (e : EmergentEmotion) (v a : Q) : sound e -> sound (update e v a).
Proof.
  intros [(_ & _ & Hd) Hr]. split; [|exact Hr].
  destruct (update_clamps e v a) as [Hv Ha].
  repeat split; try apply Hv; try apply Ha; apply Hd.
Qed.

Lemma sound_decay (e : EmergentEmotion) : sound e -> sound (decay e).
Proof.
  intros [((Hv1 & Hv2) & (Ha1 & Ha2) & (Hd1 & Hd2)) Hr].
  unfold default_rate in Hr.
  split; [|exact Hr].
  unfold in_bounds, decay; simpl. rewrite Hr. repeat split; lra.
Qed.

Lemma sound_new (now : Q) (n : string) (v a d : Q) (src : string) :
  -1 <= v <= 1 -> 0 <= a <= 1 -> 0 <= d <= 1 -> sound (new_emotion now n v a d src).
Proof.
  intros Hv Ha Hd. split; [|reflexivity].
  unfold in_bounds; simpl. tauto.
Qed.

Lemma sound_mutate (m : mutation) (self : EmotionalCore) :
  valid_stimulus m ->
  Forall sound (current_emotions self) ->
  Forall sound (current_emotions (mutate m self)).
Proof.
  intros Hm. apply (mutate_Forall sound sound_update sound_decay sound_new).
  destruct m; exact Hm || exact I.
Qed.

Lemma sound_split (self : EmotionalCore) :
  Forall sound (current_emotions self) <-> bounded self /\ default_rates self.
Proof.
  unfold bounded, default_rates, sound. rewrite !List.Forall_forall. firstorder.
Qed.

(** C1, as the code has it.  Starting from impulses within their declared
    ranges, any sequence of mutations whose stimuli are themselves within
    range (blending or inserting a stimulus, decay cycles, garden and
    interaction updates, repeated at will) leaves every impulse with valence
    in [-1, 1], arousal in [0, 1] and dominance in [0, 1].  Blending clamps
    valence and arousal into range whatever the values blended.  The
    operations are total: none raises. *)
Theorem mutations_keep_impulses_in_bounds
    (ms : list mutation) (self : EmotionalCore)
    (Hvalid : Forall valid_stimulus ms)
    (Hbounded : bounded self)
    (Hrates : default_rates self) :
  bounded (mutate_all ms self)
  /\ default_rates (mutate_all ms self)
  /\ (forall (e : EmergentEmotion) (v a : Q),
        (-1 <= valence (update e v a) /\ valence (update e v a) <= 1)
        /\ (0 <= arousal (update e v a) /\ arousal (update e v a) <= 1)).
Proof.
  assert (Hs : Forall sound (current_emotions (mutate_all ms self))).
  { assert (H : Forall sound (current_emotions self)) by now apply sound_split.
    clear Hbounded Hrates. revert self H.
    induction Hvalid as [|m ms Hm _ IH]; intros self H; simpl; [assumption|].
    apply IH. now apply sound_mutate. }
  apply sound_split in Hs as [Hb Hr].
  split; [exact Hb | split; [exact Hr | apply update_clamps]].
Qed.

(** Five mutations from the initial state, two of them blending the same
    impulse. *)
Lemma mutations_keep_impulses_in_bounds_witness :
  bounded
    (mutate_all
       [RecordFromInteraction "query" 0.8 102;
        RecordFromInteraction "query" 0.9 103;
        RecordFromGarden {| g_complexity := Some 0.8; g_blooms := Some 2%Z |} 104 105;
        ApplyStimulus (new_emotion 106 "wonder" 1 1 0 "stimulus");
        DecayCycle 0.05 2 107]
       (init 0.2 100 101 0.3)).
Proof.
  apply (mutations_keep_impulses_in_bounds
           [RecordFromInteraction "query" 0.8 102;
            RecordFromInteraction "query" 0.9 103;
            RecordFromGarden {| g_complexity := Some 0.8; g_blooms := Some 2%Z |} 104 105;
            ApplyStimulus (new_emotion 106 "wonder" 1 1 0 "stimulus");
            DecayCycle 0.05 2 107]
           (init 0.2 100 101 0.3)).
  - repeat constructor; unfold in_bounds; simpl; lra.
  - repeat constructor; unfold in_bounds; simpl; lra.
  - repeat constructor.
Defined.

(** C1, counterexample.  A stimulus outside the declared range that names no
    current impulse is inserted as it is: nothing clamps it. *)
Lemma inserted_stimulus_is_not_clamped :
  let self := init 0.2 100 101 0 in
  let rage := new_emotion 102 "rage" 5 0.5 0.5 "stimulus" in
  bounded self
  /\ In rage (current_emotions (mutate (ApplyStimulus rage) self))
  /\ ~ bounded (mutate (ApplyStimulus rage) self).
Proof.
  intros self rage. split; [|split].
  - repeat constructor; unfold in_bounds; simpl; lra.
  - simpl. auto.
  - intros H. apply List.Forall_forall with (x := rage) in H; [|simpl; auto].
    destruct H as ((_ & H) & _). simpl in H. lra.
Qed.

(** ** Blending and eviction *)

Lemma update_blended (e : EmergentEmotion) (v a : Q) :
  valence (update e v a) == blended (-1) 1 (valence e) v
  /\ arousal (update e v a) == blended 0 1 (arousal e) a.
Proof.
  unfold update, blended; simpl.
  split.
  - assert (E : 0.3 * valence e + 0.7 * v == valence e * 0.3 + v * (1 - 0.3)) by ring.
    rewrite E. unfold Py.max, Py.min. ltb_cases.
    + rewrite (Q.min_r 1), Q.max_r; lra.
    + rewrite (Q.min_l 1), Q.max_r; lra.
    + rewrite (Q.min_r 1), Q.max_l; lra.
    + rewrite (Q.min_l 1), Q.max_l; lra.
  - assert (E : 0.3 * arousal e + 0.7 * a == arousal e * 0.3 + a * (1 - 0.3)) by ring.
    rewrite E. unfold Py.max, Py.min. ltb_cases.
    + rewrite (Q.min_r 1), Q.max_r; lra.
    + rewrite (Q.min_l 1), Q.max_r; lra.
    + rewrite (Q.min_r 1), Q.max_l; lra.
    + rewrite (Q.min_l 1), Q.max_l; lra.
Qed.

Lemma update_convex (e : EmergentEmotion) (v a : Q) :
  -1 <= valence e <= 1 -> -1 <= v <= 1 -> 0 <= arousal e <= 1 -> 0 <= a <= 1 ->
  valence (update e v a) == 0.3 * valence e + 0.7 * v
  /\ arousal (update e v a) == 0.3 * arousal e + 0.7 * a.
Proof.
  intros Hv Hnv Ha Hna. unfold update; simpl.
  split; (rewrite clamp_inside; [ring | lra | lra]).
Qed.

Lemma blend_existing_found (stimulus e : EmergentEmotion) (l1 l2 : list EmergentEmotion) :
  Forall (fun x => name x <> name stimulus) l1 ->
  name e = name stimulus ->
  blend_existing stimulus (l1 ++ e :: l2)
  = Some (l1 ++ update e (valence stimulus) (arousal stimulus) :: l2).
Proof.
  intros Hl1 He. induction Hl1 as [|x l1 Hx _ IH]; simpl.
  - apply String.eqb_eq in He. now rewrite He.
  - apply String.eqb_neq in Hx. rewrite Hx, IH. reflexivity.
Qed.

Lemma blend_existing_absent (stimulus : EmergentEmotion) (l : list EmergentEmotion) :
  Forall (fun x => name x <> name stimulus) l ->
  blend_existing stimulus l = None.
Proof.
  induction 1 as [|x l Hx _ IH]; simpl; [reflexivity|].
  apply String.eqb_neq in Hx. now rewrite Hx, IH.
Qed.

Section FirstMinimum.
Context {A : Type} (key : A -> Q).

Lemma min_from_split (l : list A) :
  forall (best : A) (p1 p2 : list A),
    Forall (fun x => key best < key x) p1 ->
    Forall (fun x => key best <= key x) p2 ->
    exists l1 l2,
      p1 ++ best :: p2 ++ l = l1 ++ Py.min_from key best l :: l2
      /\ Forall (fun x => key (Py.min_from key best l) < key x) l1
      /\ Forall (fun x => key (Py.min_from key best l) <= key x) l2.
Proof.
  induction l as [|x l IH]; intros best p1 p2 H1 H2; simpl.
  - exists p1, p2. now rewrite app_nil_r.
  - ltb_split (key x) (key best).
    + destruct (IH x (p1 ++ best :: p2) []) as (l1 & l2 & Heq & Hl1 & Hl2).
      * apply Forall_app. split; [|constructor; [assumption|]].
        -- eapply List.Forall_impl; [|exact H1]. simpl. intros; lra.
        -- eapply List.Forall_impl; [|exact H2]. simpl. intros; lra.
      * constructor.
      * exists l1, l2. split; [|now split].
        rewrite <- Heq. simpl. now rewrite <- app_assoc.
    + destruct (IH best p1 (p2 ++ [x])) as (l1 & l2 & Heq & Hl1 & Hl2).
      * assumption.
      * apply Forall_app. split; [assumption | now constructor].
      * exists l1, l2. split; [|now split].
        rewrite <- Heq. now rewrite <- app_assoc.
Qed.

Lemma min_by_split (l : list A) (w : A) :
  Py.min_by key l = Some w ->
  exists l1 l2,
    l = l1 ++ w :: l2
    /\ Forall (fun x => key w < key x) l1
    /\ Forall (fun x => key w <= key x) l2.
Proof.
  destruct l as [|x l]; simpl; [discriminate|]. intros [= <-].
  destruct (min_from_split l x [] []) as (l1 & l2 & Heq & H1 & H2);
    [constructor | constructor |].
  now exists l1, l2.
Qed.
End FirstMinimum.

Lemma emotion_eqb_refl (e : EmergentEmotion) : emotion_eqb e e = true.
Proof.
  unfold emotion_eqb. now rewrite !String.eqb_refl, !Qeq_bool_refl.
Qed.

Lemma emotion_eqb_arousal (x y : EmergentEmotion) :
  emotion_eqb x y = true -> arousal x == arousal y.
Proof.
  unfold emotion_eqb. rewrite !andb_true_iff.
  intros H. apply Qeq_bool_iff. tauto.
Qed.

Lemma remove_first_weakest (w : EmergentEmotion) (l1 l2 : list EmergentEmotion) :
  Forall (fun x => arousal w < arousal x) l1 ->
  Py.remove emotion_eqb w (l1 ++ w :: l2) = l1 ++ l2.
Proof.
  induction 1 as [|x l1 Hx _ IH]; simpl.
  - now rewrite emotion_eqb_refl.
  - destruct (emotion_eqb x w) eqn:E.
    + apply emotion_eqb_arousal in E. lra.
    + now rewrite IH.
Qed.

Lemma sorted_after (R : EmergentEmotion -> EmergentEmotion -> Prop)
    (l1 l2 : list EmergentEmotion) (w : EmergentEmotion) :
  StronglySorted R (l1 ++ w :: l2) -> Forall (R w) l2.
Proof.
  induction l1 as [|x l1 IH]; simpl; intros H; apply StronglySorted_inv in H.
  - tauto.
  - apply IH. tauto.
Qed.

(** C2, as the code has it.  When an impulse of the stimulus's name exists,
    the first such impulse has its valence and arousal blended, 30% of the
    prior value and 70% of the new one, kept within range; nothing else
    changes.  Otherwise the stimulus is appended, and when more than five
    impulses are then held exactly one is removed, so that the count is what
    it was before (5 when it was 5): the removed impulse has the lowest
    arousal, and among impulses of the lowest arousal it is the first of the
    list.  That is the impulse of earliest creation when the list is in the
    order of creation. *)
Theorem apply_stimulus_blends_or_evicts (stimulus : EmergentEmotion) (self : EmotionalCore) :
  let es := current_emotions self in
  let es' := current_emotions (_add_or_update_emotion stimulus self) in
  (forall l1 e l2,
      es = l1 ++ e :: l2 ->
      Forall (fun x => name x <> name stimulus) l1 ->
      name e = name stimulus ->
      exists e',
        es' = l1 ++ e' :: l2
        /\ valence e' == blended (-1) 1 (valence e) (valence stimulus)
        /\ arousal e' == blended 0 1 (arousal e) (arousal stimulus)
        /\ (in_bounds e -> in_bounds stimulus ->
            valence e' == 0.3 * valence e + 0.7 * valence stimulus
            /\ arousal e' == 0.3 * arousal e + 0.7 * arousal stimulus)
        /\ name e' = name e
        /\ dominance e' = dominance e
        /\ emergence_source e' = emergence_source e
        /\ timestamp e' = timestamp e)
  /\ (Forall (fun x => name x <> name stimulus) es ->
      ((length es < 5)%nat -> es' = es ++ [stimulus])
      /\ ((5 <= length es)%nat ->
          exists l1 w l2,
            es ++ [stimulus] = l1 ++ w :: l2
            /\ es' = l1 ++ l2
            /\ length es' = length es
            /\ Forall (fun x => arousal w < arousal x) l1
            /\ Forall (fun x => arousal w <= arousal x) l2
            /\ (chronological (es ++ [stimulus]) ->
                Forall (fun x => arousal x == arousal w -> timestamp w <= timestamp x)
                  (es ++ [stimulus])))).
Proof.
  intros es es'. subst es es'. unfold _add_or_update_emotion. split.
  - intros l1 e l2 Heq Hl1 He.
    rewrite Heq, (blend_existing_found _ _ _ _ Hl1 He). simpl.
    eexists. split; [reflexivity|].
    destruct (update_blended e (valence stimulus) (arousal stimulus)) as [Hv Ha].
    split; [exact Hv|]. split; [exact Ha|].
    split; [|repeat split].
    intros ((? & ?) & (? & ?) & _) ((? & ?) & (? & ?) & _).
    apply update_convex; split; assumption.
  - intros Habsent. rewrite (blend_existing_absent _ _ Habsent). simpl.
    unfold append_and_limit.
    assert (Hlen : length (current_emotions self ++ [stimulus])
                   = S (length (current_emotions self))).
    { rewrite length_app. simpl. lia. }
    split.
    + intros Hlt. rewrite Hlen.
      destruct (Nat.ltb_spec 5 (S (length (current_emotions self)))); [lia|reflexivity].
    + intros Hge. rewrite Hlen.
      destruct (Nat.ltb_spec 5 (S (length (current_emotions self)))); [|lia].
      destruct (Py.min_by arousal (current_emotions self ++ [stimulus])) as [w|] eqn:E.
      * destruct (min_by_split arousal _ _ E) as (l1 & l2 & Heq & H1 & H2).
        exists l1, w, l2. split; [exact Heq|].
        rewrite Heq, (remove_first_weakest _ _ _ H1).
        split; [reflexivity|]. split.
        { rewrite Heq in Hlen. rewrite length_app in Hlen |- *. simpl in Hlen. lia. }
        split; [exact H1|]. split; [exact H2|].
        intros Hsorted. apply sorted_after in Hsorted.
        apply Forall_app. split; [|constructor].
        -- eapply List.Forall_impl; [|exact H1]. simpl. intros x Hx Hxw. lra.
        -- intros _. lra.
        -- eapply List.Forall_impl; [|exact Hsorted]. simpl. auto.
      * destruct (current_emotions self); discriminate.
Qed.

(** The first mutation blends into the existing "curiosity" impulse. *)
Lemma apply_stimulus_blends_or_evicts_witness :
  let old := new_emotion 100 "curiosity" 0.7 0.6 0.4 "system_init" in
  let anxiety := new_emotion 101 "anxiety" (-0.3) 0.4 0.2 "unknown_capabilities" in
  let stimulus := new_emotion 102 "curiosity" 0.1 0.2 0.5 "stimulus" in
  exists e',
    current_emotions (_add_or_update_emotion stimulus (init 0.2 100 101 0))
    = [] ++ e' :: [anxiety]
    /\ valence e' == blended (-1) 1 (valence old) (valence stimulus).
Proof.
  intros old anxiety stimulus.
  destruct (apply_stimulus_blends_or_evicts stimulus (init 0.2 100 101 0)) as [H _].
  destruct (H [] old [anxiety]) as (e' & He' & Hv & _).
  - reflexivity.
  - constructor.
  - reflexivity.
  - exists e'. split; assumption.
Defined.

(** C2, counterexample.  Two impulses share the lowest arousal and the one
    created later comes first in the list (the order in which the saved file
    lists them).  Inserting a sixth impulse evicts the first of the list, not
    the one of earliest creation. *)
Lemma eviction_tie_follows_list_order :
  let entry n v a t :=
    {| j_name := Some n; j_valence := Some v; j_arousal := Some a;
       j_dominance := Some 0.5; j_source := Some "saved"; j_timestamp := Some t |} in
  let fs : gmap string file :=
    {[ "emotional_state.json" :=
         JsonObject
           {| j_current_emotions :=
                Some [entry "late" 0.3 0.2 50; entry "early" 0.3 0.2 10;
                      entry "calm" 0.5 0.5 20; entry "glad" 0.6 0.6 30;
                      entry "keen" 0.7 0.7 40];
              j_memory_history := Some [];
              j_emotional_entropy := Some 0.2;
              j_saved_at := Some 60 |} ]} in
  let self := fst (load_state "emotional_state.json" fs (init 0.2 100 101 0)) in
  let late := new_emotion 50 "late" 0.3 0.2 0.5 "saved" in
  let early := new_emotion 10 "early" 0.3 0.2 0.5 "saved" in
  let stimulus := new_emotion 110 "bold" 0.9 0.9 0.5 "stimulus" in
  let after := current_emotions (_add_or_update_emotion stimulus self) in
  length (current_emotions self) = 5%nat
  /\ In late (current_emotions self) /\ In early (current_emotions self)
  /\ Forall (fun x => arousal early <= arousal x) (current_emotions self ++ [stimulus])
  /\ arousal late == arousal early
  /\ timestamp early < timestamp late
  /\ In early after
  /\ ~ In late after.
Proof.
  vm_compute current_emotions.
  repeat split; try (simpl; tauto); try reflexivity.
  - repeat constructor; simpl; lra.
  - intros H. simpl in H.
    repeat (destruct H as [H | H]; [discriminate H|]). exact H.
Qed.

(** ** Decay cycles *)

Lemma iter_decay_rate (n : nat) (e : EmergentEmotion) :
  decay_rate (Nat.iter n decay e) = decay_rate e.
Proof. induction n as [|n IH]; simpl; [reflexivity | exact IH]. Qed.

Lemma iter_decay_scales (n : nat) (e : EmergentEmotion) :
  default_rate e ->
  valence (Nat.iter n decay e) == valence e * 0.95 ^ Z.of_nat n
  /\ arousal (Nat.iter n decay e) == arousal e * 0.95 ^ Z.of_nat n
  /\ dominance (Nat.iter n decay e) == dominance e * 0.95 ^ Z.of_nat n.
Proof.
  intros Hr. induction n as [|n (IHv & IHa & IHd)].
  - simpl. repeat split; ring.
  - assert (Hp : 0.95 ^ Z.of_nat (S n) == 0.95 ^ Z.of_nat n * 0.95).
    { rewrite Nat2Z.inj_succ. unfold Z.succ.
      rewrite Qpower_plus by (intros H; discriminate H). reflexivity. }
    simpl Nat.iter. unfold decay at 1 3 5. simpl.
    rewrite iter_decay_rate, Hr, Hp, IHv, IHa, IHd.
    repeat split; ring.
Qed.

Lemma lingers_false (e : EmergentEmotion) : lingers e = false <-> negligible e.
Proof.
  unfold lingers, negligible. rewrite orb_false_iff, !ltb_ge. reflexivity.
Qed.

Lemma lingers_before_decay (e : EmergentEmotion) :
  default_rate e -> lingers (decay e) = true -> lingers e = true.
Proof.
  unfold default_rate, lingers, decay; cbn [valence arousal]. intros ->.
  rewrite !orb_true_iff, !ltb_lt, Qabs_Qmult.
  assert (H95 : Qabs 0.95 == 0.95) by reflexivity. rewrite H95.
  pose proof (Qabs_nonneg (valence e)). intros [H1|H1]; [left|right]; lra.
Qed.

Lemma quiet_cycle_emotions (roll : Q) (pick : nat) (now : Q) (self : EmotionalCore) :
  0.1 <= roll ->
  current_emotions (process_emotional_cycle roll pick now self)
  = List.filter lingers (map decay (current_emotions self)).
Proof.
  intros Hroll. unfold process_emotional_cycle.
  apply ltb_ge in Hroll. rewrite Hroll.
  destruct (get_dominant_emotion _); reflexivity.
Qed.

Lemma filter_map_swap {A B : Type} (f : A -> B) (p : B -> bool) (l : list A) :
  List.filter p (map f l) = map f (List.filter (fun x => p (f x)) l).
Proof.
  induction l as [|x l IH]; simpl; [reflexivity|].
  destruct (p (f x)); simpl; now rewrite IH.
Qed.

Lemma filter_filter_implied {A : Type} (p q : A -> bool) (l : list A) :
  (forall x, In x l -> q x = true -> p x = true) ->
  List.filter q (List.filter p l) = List.filter q l.
Proof.
  induction l as [|x l IH]; simpl; intros H; [reflexivity|].
  destruct (p x) eqn:Ep; simpl.
  - destruct (q x); rewrite IH; auto.
  - destruct (q x) eqn:Eq.
    + rewrite H in Ep; [discriminate | now left | exact Eq].
    + apply IH. auto.
Qed.

Lemma cycles_snoc (draws : list (Q * nat * Q)) (d : Q * nat * Q) (self : EmotionalCore) :
  cycles (draws ++ [d]) self
  = process_emotional_cycle (fst (fst d)) (snd (fst d)) (snd d) (cycles draws self).
Proof. unfold cycles. now rewrite fold_left_app. Qed.

Lemma quiet_cycles_emotions (draws : list (Q * nat * Q)) (self : EmotionalCore) :
  never_fires draws ->
  default_rates self ->
  current_emotions (cycles draws self)
  = map (Nat.iter (length draws) decay)
      (survivors (length draws) (current_emotions self)).
Proof.
  intros Hquiet Hrates. induction draws as [|d draws IH] using rev_ind.
  - simpl. now rewrite map_id.
  - apply Forall_app in Hquiet as [Hquiet Hd].
    inversion Hd as [|? ? Hroll _]; subst.
    rewrite cycles_snoc, (quiet_cycle_emotions _ _ _ _ Hroll), (IH Hquiet).
    rewrite length_app. simpl length.
    replace (length draws + 1)%nat with (S (length draws)) by lia.
    rewrite map_map, filter_map_swap. simpl survivors.
    f_equal. destruct (length draws) as [|k] eqn:Ek; [reflexivity|].
    unfold survivors. apply filter_filter_implied.
    intros x Hx. apply lingers_before_decay.
    unfold default_rate. rewrite iter_decay_rate.
    unfold default_rates in Hrates.
    rewrite List.Forall_forall in Hrates. now apply Hrates.
Qed.

Lemma add_memory_history (m : EmotionalMemory) (d : EmergentEmotion) :
  max_history m = 100%nat ->
  emotional_history (add_memory m d)
  = if (length (emotional_history m) <? 100)%nat
    then emotional_history m ++ [snapshot_of d]
    else tl (emotional_history m ++ [snapshot_of d]).
Proof.
  intros Hmax. unfold add_memory; simpl. rewrite Hmax.
  fold (snapshot_of d). rewrite length_app. simpl length.
  destruct (Nat.ltb_spec 100 (length (emotional_history m) + 1));
    destruct (Nat.ltb_spec (length (emotional_history m)) 100);
    reflexivity || lia.
Qed.

(** C3.  When the fluctuation branch never fires, [n] consecutive decay
    cycles leave exactly the impulses that still linger after [n] decays, each
    with its valence, arousal and dominance multiplied by 0.95^n.  Within one
    such cycle, all impulses are decayed first; the dominant impulse of the
    decayed set, if there is one, is appended to the history, whose oldest
    entry is dropped once 100 entries are exceeded; then exactly the decayed
    impulses with |valence| <= 0.05 and arousal <= 0.05 are removed. *)
Theorem quiet_decay_cycles_scale_by_power
    (draws : list (Q * nat * Q)) (self : EmotionalCore)
    (Hquiet : never_fires draws)
    (Hrates : default_rates self) :
  let n := length draws in
  current_emotions (cycles draws self)
  = map (Nat.iter n decay) (survivors n (current_emotions self))
  /\ Forall (fun e =>
               valence (Nat.iter n decay e) == valence e * 0.95 ^ Z.of_nat n
               /\ arousal (Nat.iter n decay e) == arousal e * 0.95 ^ Z.of_nat n
               /\ dominance (Nat.iter n decay e) == dominance e * 0.95 ^ Z.of_nat n)
       (current_emotions self)
  /\ (forall (c : EmotionalCore) (roll : Q) (pick : nat) (now : Q),
        0.1 <= roll ->
        max_history (memory c) = 100%nat ->
        let decayed := set_current_emotions (map decay (current_emotions c)) c in
        let c' := process_emotional_cycle roll pick now c in
        let history := emotional_history (memory c) in
        emotional_history (memory c')
        = match get_dominant_emotion decayed with
          | None => history
          | Some d =>
              if (length history <? 100)%nat
              then history ++ [snapshot_of d]
              else tl (history ++ [snapshot_of d])
          end
        /\ current_emotions c' = List.filter lingers (current_emotions decayed)
        /\ forall e, In e (current_emotions decayed) ->
                     (In e (current_emotions c') <-> ~ negligible e)).
Proof.
  intros n. split; [now apply quiet_cycles_emotions|]. split.
  - unfold default_rates in Hrates.
    eapply List.Forall_impl; [|exact Hrates].
    intros e He. now apply iter_decay_scales.
  - intros c roll pick now Hroll Hmax decayed c' history.
    assert (Hem : current_emotions c' = List.filter lingers (current_emotions decayed)).
    { subst c'. now rewrite quiet_cycle_emotions. }
    split; [|split; [exact Hem|]].
    + subst c' history. unfold process_emotional_cycle.
      apply ltb_ge in Hroll. rewrite Hroll. fold decayed.
      destruct (get_dominant_emotion decayed) as [d|]; [|reflexivity].
      simpl. now apply add_memory_history.
    + intros e He. rewrite Hem, filter_In, <- lingers_false.
      destruct (lingers e); intuition congruence.
Qed.

(** Three quiet cycles from the initial state. *)
Lemma quiet_decay_cycles_scale_by_power_witness :
  let draws := [(0.5, 0%nat, 102); (0.1, 1%nat, 103); (0.9, 2%nat, 104)] in
  let self := init 0.2 100 101 0 in
  current_emotions (cycles draws self)
  = map (Nat.iter 3 decay) (survivors 3 (current_emotions self)).
Proof.
  intros draws self.
  destruct (quiet_decay_cycles_scale_by_power draws self) as [H _].
  - repeat constructor; simpl; lra.
  - repeat constructor.
  - exact H.
Defined.

(** ** Loading *)

Lemma for_each_restore (saved : list emotion_dict) :
  forall c : EmotionalCore,
    for_each saved restore_emotion c
    = (set_current_emotions (current_emotions c ++ fst (restore_all saved)) c,
       match snd (restore_all saved) with
       | None => Py.Ok tt
       | Some key => Py.Raise (Py.KeyError key)
       end).
Proof.
  induction saved as [|e_data rest IH]; intros c.
  - simpl. rewrite app_nil_r. now destruct c.
  - simpl. unfold mbind, M_bind, bind, restore_emotion, restored, first_missing.
    unfold mbind, M_bind, bind, eval, assign.
    destruct (j_name e_data), (j_valence e_data), (j_arousal e_data),
             (j_source e_data), (j_timestamp e_data); simpl;
      try (rewrite app_nil_r; now destruct c).
    rewrite IH. simpl. now rewrite <- app_assoc.
Qed.

Lemma load_state_cases (filepath : string) (fs : gmap string file) (self : EmotionalCore) :
  load_state filepath fs self
  = match fs !! filepath with
    | None => (self, Py.Ok NoSavedState)
    | Some NotJson => (self, Py.Ok (LoadError Py.JSONDecodeError))
    | Some JsonOther =>
        (set_current_emotions [] self, Py.Ok (LoadError Py.AttributeError))
    | Some (JsonObject state) =>
        let saved := Py.get (j_current_emotions state) [] in
        match snd (restore_all saved) with
        | Some key =>
            (set_current_emotions (fst (restore_all saved)) self,
             Py.Ok (LoadError (Py.KeyError key)))
        | None =>
            (set_history (Py.get (j_memory_history state) [])
               (set_current_emotions (fst (restore_all saved)) self),
             Py.Ok (Loaded filepath))
        end
    end.
Proof.
  unfold load_state, try_except, load_state_body, json_load.
  unfold mbind, M_bind, bind, eval, assign, mret, M_ret, ret.
  destruct (fs !! filepath) as [[state| |]|]; simpl; try reflexivity.
  rewrite for_each_restore. simpl.
  destruct (snd (restore_all (Py.get (j_current_emotions state) []))); reflexivity.
Qed.

Lemma load_state_returns (filepath : string) (fs : gmap string file) (self : EmotionalCore) :
  exists (self' : EmotionalCore) (message : load_message),
    load_state filepath fs self = (self', Py.Ok message).
Proof.
  rewrite load_state_cases.
  destruct (fs !! filepath) as [[state| |]|]; simpl; eauto.
  destruct (snd (restore_all _)); eauto.
Qed.

Lemma load_state_entropy (filepath : string) (fs : gmap string file) (self : EmotionalCore) :
  emotional_entropy (fst (load_state filepath fs self)) = emotional_entropy self.
Proof.
  rewrite load_state_cases.
  destruct (fs !! filepath) as [[state| |]|]; simpl; try reflexivity.
  destruct (snd (restore_all _)); reflexivity.
Qed.

(** C8, as the code has it.  [load_state] never raises: it always returns,
    with the message it prints.  A missing file and a file that is not JSON
    leave the core as it was; from the freshly constructed core the snapshot
    is then that of the default state.  In a JSON object, an absent
    "current_emotions" or "memory_history" reads as the empty list and an
    absent "dominance" as 0.5, and these are the only defaults: the impulses
    held before are dropped, the saved entries are restored in order up to the
    first one that lacks "name", "valence", "arousal", "source" or
    "timestamp", and at such an entry the load stops with the error message,
    the history being left as it was.  A JSON value that is not an object
    drops the impulses and restores nothing. *)
Theorem load_never_raises (filepath : string) (fs : gmap string file) (self : EmotionalCore) :
  (exists (self' : EmotionalCore) (message : load_message),
      load_state filepath fs self = (self', Py.Ok message))
  /\ load_state filepath fs self
     = match fs !! filepath with
       | None => (self, Py.Ok NoSavedState)
       | Some NotJson => (self, Py.Ok (LoadError Py.JSONDecodeError))
       | Some JsonOther =>
           (set_current_emotions [] self, Py.Ok (LoadError Py.AttributeError))
       | Some (JsonObject state) =>
           let saved := Py.get (j_current_emotions state) [] in
           match snd (restore_all saved) with
           | Some key =>
               (set_current_emotions (fst (restore_all saved)) self,
                Py.Ok (LoadError (Py.KeyError key)))
           | None =>
               (set_history (Py.get (j_memory_history state) [])
                  (set_current_emotions (fst (restore_all saved)) self),
                Py.Ok (Loaded filepath))
           end
       end
  /\ (forall u t1 t2 g : Q,
        get_emotional_state (init u t1 t2 g)
        = Py.Ok
            {| s_mood := "positive"; s_energy := "medium";
               s_dominant_emotion := "curiosity"; s_valence_bias := 0;
               s_emotional_entropy := u; s_active_emotions := 2;
               s_emotions :=
                 [ {| v_name := "curiosity"; v_valence := 0.7; v_arousal := 0.6;
                      v_source := "system_init" |};
                   {| v_name := "anxiety"; v_valence := -0.3; v_arousal := 0.4;
                      v_source := "unknown_capabilities" |} ] |}).
Proof.
  split; [apply load_state_returns|]. split; [apply load_state_cases|].
  reflexivity.
Qed.

(** C8, counterexample.  An impulse entry without "valence" is not given a
    default: the load stops, no impulse is left and the saved history is not
    read.  A history entry without "valence" is loaded as it is, and the next
    snapshot raises [KeyError]. *)
Lemma missing_keys_are_not_recovered :
  let fresh := init 0.2 100 101 0 in
  let joy :=
    {| j_name := Some "joy"; j_valence := None; j_arousal := Some 0.5;
       j_dominance := Some 0.5; j_source := Some "saved"; j_timestamp := Some 1 |} in
  let remembered :=
    {| m_name := Some "joy"; m_valence := Some 0.5; m_arousal := Some 0.5;
       m_source := Some "saved"; m_time := Some 1 |} in
  let blank :=
    {| m_name := None; m_valence := None; m_arousal := None;
       m_source := None; m_time := None |} in
  let fs1 : gmap string file :=
    {[ "emotional_state.json" :=
         JsonObject {| j_current_emotions := Some [joy];
                       j_memory_history := Some [remembered];
                       j_emotional_entropy := Some 0.2; j_saved_at := Some 2 |} ]} in
  let fs2 : gmap string file :=
    {[ "emotional_state.json" :=
         JsonObject {| j_current_emotions := None;
                       j_memory_history := Some [blank];
                       j_emotional_entropy := None; j_saved_at := None |} ]} in
  let after1 := load_state "emotional_state.json" fs1 fresh in
  let after2 := load_state "emotional_state.json" fs2 fresh in
  snd after1 = Py.Ok (LoadError (Py.KeyError "valence"))
  /\ current_emotions (fst after1) = []
  /\ emotional_history (memory (fst after1)) = []
  /\ snd after2 = Py.Ok (Loaded "emotional_state.json")
  /\ get_emotional_state (fst after2) = Py.Raise (Py.KeyError "valence").
Proof.
  vm_compute. repeat split.
Qed.

(** ** Saving, then loading *)

Lemma restored_saved_entry (e : EmergentEmotion) :
  default_rate e -> restored (saved_entry e) = Some e.
Proof.
  unfold default_rate. destruct e; simpl. intros ->. reflexivity.
Qed.

Lemma restore_all_saved (es : list EmergentEmotion) :
  Forall default_rate es -> restore_all (map saved_entry es) = (es, None).
Proof.
  induction 1 as [|e es He _ IH]; cbn [map restore_all]; [reflexivity|].
  now rewrite (restored_saved_entry e He), IH.
Qed.

Lemma last_n_last_n {A : Type} (n m : nat) (l : list A) :
  (n <= m)%nat -> Py.last_n n (Py.last_n m l) = Py.last_n n l.
Proof.
  intros Hnm. unfold Py.last_n.
  rewrite length_skipn, skipn_skipn. f_equal. lia.
Qed.

Lemma get_mood_bias_recent (m : EmotionalMemory) :
  get_mood_bias m
  = match Py.last_n 10 (emotional_history m) with
    | [] => Py.Ok 0
    | recent =>
        match sum_valence 0 recent with
        | Py.Ok total =>
            Py.Ok (total / inject_Z (Z.of_nat (length recent)) * memory_weight m)
        | Py.Raise ex => Py.Raise ex
        end
    end.
Proof.
  unfold get_mood_bias. destruct (emotional_history m) as [|x h]; [reflexivity|].
  destruct (Py.last_n 10 (x :: h)); reflexivity.
Qed.

Lemma get_emotional_state_ext (c1 c2 : EmotionalCore) :
  current_emotions c1 = current_emotions c2 ->
  get_mood_bias (memory c1) = get_mood_bias (memory c2) ->
  get_emotional_state c1
  = with_entropy (emotional_entropy c1) (get_emotional_state c2).
Proof.
  intros Hes Hbias. unfold get_emotional_state, get_dominant_emotion.
  rewrite Hes, Hbias.
  destruct (get_mood_bias (memory c2)); reflexivity.
Qed.

Lemma with_entropy_same (c : EmotionalCore) :
  with_entropy (emotional_entropy c) (get_emotional_state c) = get_emotional_state c.
Proof.
  unfold get_emotional_state.
  destruct (get_mood_bias (memory c)); reflexivity.
Qed.

(** C5, as the code has it.  Loading the file that [save_state] wrote
    restores the impulses as they were and the last 20 entries of the
    history, so the dominant impulse is the same and the snapshot is the same
    in every field but "emotional_entropy", which is that of the core that
    loads the file.  The two snapshots are equal when the two cores have the
    same entropy. *)
Theorem load_after_save_restores_snapshot
    (self other : EmotionalCore) (filepath : string) (now : Q) (fs : gmap string file)
    (Hrates : default_rates self)
    (Hweight : memory_weight (memory other) = memory_weight (memory self)) :
  let after := load_state filepath (save_state filepath now self fs) other in
  snd after = Py.Ok (Loaded filepath)
  /\ current_emotions (fst after) = current_emotions self
  /\ emotional_history (memory (fst after))
     = Py.last_n 20 (emotional_history (memory self))
  /\ get_dominant_emotion (fst after) = get_dominant_emotion self
  /\ get_emotional_state (fst after)
     = with_entropy (emotional_entropy other) (get_emotional_state self)
  /\ (emotional_entropy other = emotional_entropy self ->
      get_emotional_state (fst after) = get_emotional_state self).
Proof.
  intros after. subst after.
  rewrite load_state_cases. unfold save_state. rewrite lookup_insert_eq.
  cbn [j_current_emotions j_memory_history Py.get].
  rewrite (restore_all_saved _ Hrates). cbn [fst snd].
  assert (Hstate :
    get_emotional_state
      (set_history (Py.last_n 20 (emotional_history (memory self)))
         (set_current_emotions (current_emotions self) other))
    = with_entropy (emotional_entropy other) (get_emotional_state self)).
  { apply (get_emotional_state_ext
             (set_history (Py.last_n 20 (emotional_history (memory self)))
                (set_current_emotions (current_emotions self) other)) self).
    - reflexivity.
    - rewrite !get_mood_bias_recent.
      cbn [set_history set_memory set_current_emotions memory
           emotional_history memory_weight].
      rewrite last_n_last_n by lia. now rewrite Hweight. }
  repeat split; try reflexivity; try exact Hstate.
  intros Hsame. rewrite Hstate, Hsame. apply with_entropy_same.
Qed.

(** Saving the initial state and loading it into a core built with the same
    draw of the entropy. *)
Lemma load_after_save_restores_snapshot_witness :
  let self := init 0.2 100 101 0 in
  let other := init 0.2 200 201 0 in
  get_dominant_emotion
    (fst (load_state "emotional_state.json"
            (save_state "emotional_state.json" 150 self ∅) other))
  = get_dominant_emotion self.
Proof.
  intros self other.
  destruct (load_after_save_restores_snapshot self other "emotional_state.json" 150 ∅)
    as (_ & _ & _ & H & _).
  - repeat constructor.
  - reflexivity.
  - exact H.
Defined.

(** C5, counterexample.  The state saved by a core whose entropy is 0.1 is
    loaded by a core constructed with entropy 0.3: the snapshot after loading
    reports 0.3, not the 0.1 of the original. *)
Lemma reloaded_snapshot_differs_in_entropy :
  let self := init 0.1 100 101 0 in
  let other := init 0.3 200 201 0 in
  let loaded :=
    fst (load_state "emotional_state.json"
           (save_state "emotional_state.json" 150 self ∅) other) in
  exists s s',
    get_emotional_state self = Py.Ok s
    /\ get_emotional_state loaded = Py.Ok s'
    /\ s_emotional_entropy s = 0.1
    /\ s_emotional_entropy s' = 0.3
    /\ ~ s_emotional_entropy s' == s_emotional_entropy s.
Proof.
  vm_compute. do 2 eexists.
  split; [reflexivity|]. split; [reflexivity|].
  split; [reflexivity|]. split; [reflexivity|]. discriminate.
Qed.

(** C10.  Whatever core saved the file, after a freshly constructed core has
    loaded it the entropy of that core is still the value drawn at its
    construction, hence within [0.1, 0.3] when the draw was, and so is the
    entropy that its snapshot reports; the "emotional_entropy" field that
    [save_state] wrote is not read back. *)
Theorem load_keeps_entropy_of_construction
    (self : EmotionalCore) (u t1 t2 g : Q)
    (filepath : string) (now : Q) (fs : gmap string file) :
  let saved := save_state filepath now self fs in
  let loaded := fst (load_state filepath saved (init u t1 t2 g)) in
  (exists state,
      saved !! filepath = Some (JsonObject state)
      /\ j_emotional_entropy state = Some (emotional_entropy self))
  /\ emotional_entropy loaded = u
  /\ match get_emotional_state loaded with
     | Py.Ok s => s_emotional_entropy s = u
     | Py.Raise _ => True
     end
  /\ (0.1 <= u <= 0.3 ->
      0.1 <= emotional_entropy loaded <= 0.3)
  /\ (~ u == emotional_entropy self ->
      ~ emotional_entropy loaded == emotional_entropy self).
Proof.
  intros saved loaded.
  assert (Hu : emotional_entropy loaded = u).
  { subst loaded. now rewrite load_state_entropy. }
  split; [|split; [exact Hu|split; [|split]]].
  - subst saved. unfold save_state. rewrite lookup_insert_eq.
    eexists. split; reflexivity.
  - unfold get_emotional_state.
    destruct (get_mood_bias (memory loaded)); [exact Hu | exact I].
  - now rewrite Hu.
  - now rewrite Hu.
Qed.

(** ** Interaction and garden stimuli *)

(** C6.  A query blends exactly one of three fixed impulses: contemplation
    (0.4, 0.3) when |sentiment| < 0.3, engagement (0.6, 0.5) when
    sentiment > 0.3, defensive (-0.4, 0.6) when sentiment <= -0.3; an
    interaction of another kind changes nothing.  At sentiment = 0.3 exactly
    the code falls through to the last branch and blends the defensive
    impulse, not engagement.  On an empty set, sentiment -0.5 yields the
    single defensive impulse, and the snapshot has mood "negative" and energy
    "medium". *)
Theorem query_at_threshold_blends_defensive (now : Q) (self : EmotionalCore) :
  let contemplation := new_emotion now "contemplation" 0.4 0.3 0.5 "neutral_query" in
  let engagement := new_emotion now "engagement" 0.6 0.5 0.4 "positive_interaction" in
  let defensive := new_emotion now "defensive" (-0.4) 0.6 0.7 "negative_interaction" in
  let empty := set_current_emotions [] self in
  (forall sentiment : Q,
      (Qabs sentiment < 0.3 ->
       update_from_interaction "query" sentiment now self
       = _add_or_update_emotion contemplation self)
      /\ (0.3 < sentiment ->
          update_from_interaction "query" sentiment now self
          = _add_or_update_emotion engagement self)
      /\ (sentiment <= -0.3 ->
          update_from_interaction "query" sentiment now self
          = _add_or_update_emotion defensive self)
      /\ (sentiment == 0.3 ->
          update_from_interaction "query" sentiment now self
          = _add_or_update_emotion defensive self))
  /\ (forall (kind : string) (sentiment : Q),
        kind <> "query" -> update_from_interaction kind sentiment now self = self)
  /\ current_emotions (update_from_interaction "query" 0.3 now empty) = [defensive]
  /\ current_emotions (update_from_interaction "query" (-0.5) now empty) = [defensive]
  /\ (forall u t1 t2 g : Q,
        get_emotional_state
          (update_from_interaction "query" (-0.5) now
             (set_current_emotions [] (init u t1 t2 g)))
        = Py.Ok
            {| s_mood := "negative"; s_energy := "medium";
               s_dominant_emotion := "defensive"; s_valence_bias := 0;
               s_emotional_entropy := u; s_active_emotions := 1;
               s_emotions := [view defensive] |}).
Proof.
  intros contemplation engagement defensive empty.
  split; [|split; [|split; [|split]]].
  - intros sentiment. unfold update_from_interaction. simpl String.eqb. cbv iota.
    repeat split; intros H.
    + apply ltb_lt in H. now rewrite H.
    + assert (H1 : Py.ltb (Qabs sentiment) 0.3 = false).
      { apply ltb_ge. rewrite Qabs_pos; lra. }
      apply ltb_lt in H. now rewrite H1, H.
    + assert (H1 : Py.ltb (Qabs sentiment) 0.3 = false).
      { apply ltb_ge. rewrite Qabs_neg; lra. }
      assert (H2 : Py.ltb 0.3 sentiment = false) by (apply ltb_ge; lra).
      now rewrite H1, H2.
    + assert (H1 : Py.ltb (Qabs sentiment) 0.3 = false).
      { apply ltb_ge. rewrite Qabs_pos; lra. }
      assert (H2 : Py.ltb 0.3 sentiment = false) by (apply ltb_ge; lra).
      now rewrite H1, H2.
  - intros kind sentiment Hkind. unfold update_from_interaction.
    apply String.eqb_neq in Hkind. now rewrite Hkind.
  - reflexivity.
  - reflexivity.
  - reflexivity.
Qed.

(** C7.  [update_from_garden] applies the awe stimulus (0.8, 0.7) exactly
    when complexity > 0.7, then the joy stimulus exactly when blooms > 0, with
    valence min(blooms * 0.2, 0.9) and arousal 0.8 times that; an absent key
    counts as 0.  From the fresh default state, complexity 0.8 and 3 blooms
    create awe (0.8, 0.7) and joy of valence 0.6, and awe is then dominant,
    with score 0.76 against 0.552 for joy. *)
Theorem garden_update_applies_awe_and_joy :
  (forall (garden : garden_state) (t_awe t_joy : Q) (self : EmotionalCore),
      let complexity := default 0 (g_complexity garden) in
      let blooms := default 0%Z (g_blooms garden) in
      exists awe joy,
        (name awe = "awe" /\ valence awe = 0.8 /\ arousal awe = 0.7)
        /\ (name joy = "joy"
            /\ valence joy == Qmin (inject_Z blooms * 0.2) 0.9
            /\ arousal joy == Qmin (inject_Z blooms * 0.2) 0.9 * 0.8)
        /\ update_from_garden garden t_awe t_joy self
           = (if Z_lt_dec 0 blooms then _add_or_update_emotion joy else id)
               ((if Qlt_le_dec 0.7 complexity then _add_or_update_emotion awe else id)
                  self))
  /\ (forall u t1 t2 g t_awe t_joy : Q,
        let garden := {| g_complexity := Some 0.8; g_blooms := Some 3%Z |} in
        let after := update_from_garden garden t_awe t_joy (init u t1 t2 g) in
        exists awe joy,
          map name (current_emotions after) = ["curiosity"; "anxiety"; "awe"; "joy"]
          /\ In awe (current_emotions after) /\ In joy (current_emotions after)
          /\ (name awe = "awe" /\ valence awe == 0.8 /\ arousal awe == 0.7)
          /\ (name joy = "joy" /\ valence joy == 0.6)
          /\ get_dominant_emotion after = Some awe
          /\ selection_score awe == 0.76
          /\ selection_score joy == 0.552).
Proof.
  split.
  - intros garden t_awe t_joy self complexity blooms.
    exists (new_emotion t_awe "awe" 0.8 0.7 0.1 "garden_complexity").
    exists (new_emotion t_joy "joy"
              (Py.min (inject_Z blooms * 0.2) 0.9)
              (Py.min (inject_Z blooms * 0.2) 0.9 * 0.8) 0.3
              ("garden_blooms_" +:+ pretty blooms)).
    split; [repeat split|]. split.
    { split; [reflexivity|]. cbn [valence arousal new_emotion].
      rewrite py_min_Qmin. split; reflexivity. }
    unfold update_from_garden.
    change (Py.get (g_complexity garden) 0) with complexity.
    change (Py.get (g_blooms garden) 0%Z) with blooms.
    assert (Hc : Py.ltb 0.7 complexity
                 = if Qlt_le_dec 0.7 complexity then true else false).
    { destruct (Qlt_le_dec 0.7 complexity); [now apply ltb_lt | now apply ltb_ge]. }
    assert (Hb : (0 <? blooms)%Z = if Z_lt_dec 0 blooms then true else false).
    { destruct (Z_lt_dec 0 blooms); [now apply Z.ltb_lt | apply Z.ltb_ge; lia]. }
    rewrite Hc, Hb.
    destruct (Qlt_le_dec 0.7 complexity), (Z_lt_dec 0 blooms); reflexivity.
  - intros u t1 t2 g t_awe t_joy garden after.
    exists (new_emotion t_awe "awe" 0.8 0.7 0.1 "garden_complexity").
    exists (new_emotion t_joy "joy" (Py.min (inject_Z 3 * 0.2) 0.9)
              (Py.min (inject_Z 3 * 0.2) 0.9 * 0.8) 0.3 "garden_blooms_3").
    split; [reflexivity|].
    split; [simpl; tauto|]. split; [simpl; tauto|].
    repeat split; reflexivity.
Qed.

(** ** The snapshot *)

Lemma last_entries_last_n {A : Type} (n : nat) (l : list A) :
  last_entries n l = Py.last_n n l.
Proof.
  unfold last_entries, Py.last_n. now rewrite firstn_rev, rev_involutive.
Qed.

Lemma sum_valence_total (recent : list memory_dict) :
  forall (vs : list Q) (acc : Q),
    map m_valence recent = map Some vs ->
    exists total,
      sum_valence acc recent = Py.Ok total
      /\ total == acc + fold_right Qplus 0 vs.
Proof.
  induction recent as [|e recent IH]; intros [|v vs] acc Hvs;
    try discriminate Hvs.
  - exists acc. split; [reflexivity | simpl; ring].
  - simpl in Hvs. injection Hvs as Hv Hrest.
    destruct (IH vs (acc + v) Hrest) as (total & Hsum & Htotal).
    exists total. simpl. rewrite Hv. simpl. split; [exact Hsum|].
    rewrite Htotal. ring.
Qed.

(** C9.  In the snapshot, the mood is "neutral" exactly when there is no
    dominant impulse; otherwise it follows the sign of the dominant valence,
    "positive" above zero and "negative" below (and at zero).  The energy is
    "high" when the dominant arousal exceeds 0.6, "medium" when it exceeds
    0.3, "low" otherwise and when there is no dominant impulse.  The bias is
    0 on an empty history, and otherwise the mean valence of the last ten
    entries of the history times the memory weight 0.2. *)
Theorem snapshot_derivation
    (self : EmotionalCore) (vs : list Q)
    (Hweight : memory_weight (memory self) = 0.2)
    (Hvs : map m_valence (last_entries 10 (emotional_history (memory self)))
           = map Some vs) :
  exists s,
    get_emotional_state self = Py.Ok s
    /\ (s_mood s = "neutral" <-> get_dominant_emotion self = None)
    /\ match get_dominant_emotion self with
       | None => s_mood s = "neutral" /\ s_energy s = "low"
       | Some d =>
           (0 < valence d -> s_mood s = "positive")
           /\ (valence d <= 0 -> s_mood s = "negative")
           /\ (0.6 < arousal d -> s_energy s = "high")
           /\ (0.3 < arousal d -> arousal d <= 0.6 -> s_energy s = "medium")
           /\ (arousal d <= 0.3 -> s_energy s = "low")
       end
    /\ (emotional_history (memory self) = [] -> s_valence_bias s = 0)
    /\ (emotional_history (memory self) <> [] -> s_valence_bias s == mean vs * 0.2).
Proof.
  rewrite last_entries_last_n in Hvs.
  assert (Hbias : exists bias,
             get_mood_bias (memory self) = Py.Ok bias
             /\ (emotional_history (memory self) = [] -> bias = 0)
             /\ (emotional_history (memory self) <> [] -> bias == mean vs * 0.2)).
  { destruct (emotional_history (memory self)) as [|x h] eqn:Eh.
    - exists 0. unfold get_mood_bias. rewrite Eh.
      split; [reflexivity|]. split; [reflexivity | congruence].
    - rewrite get_mood_bias_recent, Eh.
      destruct (sum_valence_total _ vs 0 Hvs) as (total & Hsum & Htotal).
      assert (Hlen : length (Py.last_n 10 (x :: h)) = length vs).
      { rewrite <- (length_map m_valence), Hvs. apply length_map. }
      destruct (Py.last_n 10 (x :: h)) as [|y recent] eqn:Er.
      + apply (f_equal (@length _)) in Er. unfold Py.last_n in Er.
        rewrite length_skipn in Er. simpl in Er. lia.
      + cbv beta iota zeta. rewrite Hsum, Hlen, Hweight. eexists. split; [reflexivity|].
        split; [discriminate|]. intros _.
        unfold mean. rewrite Htotal.
        assert (E : 0 + fold_right Qplus 0 vs == fold_right Qplus 0 vs) by ring.
        now rewrite E. }
  destruct Hbias as (bias & Hbias & Hempty & Hmean).
  unfold get_emotional_state. rewrite Hbias. eexists. split; [reflexivity|].
  cbn [s_mood s_energy s_valence_bias].
  split; [|split; [|split; assumption]].
  - destruct (get_dominant_emotion self) as [d|].
    + destruct (Py.ltb 0 (valence d)); split; discriminate.
    + split; reflexivity.
  - destruct (get_dominant_emotion self) as [d|]; [|split; reflexivity].
    repeat split; intros; ltb_cases; reflexivity || lra.
Qed.

(** The initial state after one quiet decay cycle: the history holds the
    decayed curiosity. *)
Lemma snapshot_derivation_witness :
  let self := process_emotional_cycle 0.5 0 102 (init 0.2 100 101 0) in
  exists s,
    get_emotional_state self = Py.Ok s
    /\ (emotional_history (memory self) <> [] ->
        s_valence_bias s == mean [0.7 * 0.95] * 0.2).
Proof.
  intros self.
  destruct (snapshot_derivation self [0.7 * 0.95]) as (s & Hs & _ & _ & _ & Hmean).
  - reflexivity.
  - reflexivity.
  - exists s. split; assumption.
Defined.

(** ** Reachable states *)

(** The two calls that could raise [ValueError] in [_add_or_update_emotion]
    never do: [min] is given a list that holds at least the new emotion, and
    [remove] is given an element of the list. *)
Lemma weakest_is_found (stimulus : EmergentEmotion) (l : list EmergentEmotion) :
  exists weakest,
    Py.min_by arousal (l ++ [stimulus]) = Some weakest
    /\ existsb (fun x => emotion_eqb x weakest) (l ++ [stimulus]) = true.
Proof.
  destruct (l ++ [stimulus]) as [|x rest] eqn:E.
  - destruct l; discriminate.
  - exists (Py.min_from arousal x rest). split; [reflexivity|].
    apply existsb_exists. exists (Py.min_from arousal x rest).
    split; [apply min_from_In | apply emotion_eqb_refl].
Qed.

Lemma default_rate_update (e : EmergentEmotion) (v a : Q) :
  default_rate e -> default_rate (update e v a).
Proof. intros H. exact H. Qed.

Lemma default_rate_decay (e : EmergentEmotion) : default_rate e -> default_rate (decay e).
Proof. intros H. exact H. Qed.

Lemma default_rate_new (now : Q) (n : string) (v a d : Q) (src : string) :
  -1 <= v <= 1 -> 0 <= a <= 1 -> 0 <= d <= 1 ->
  default_rate (new_emotion now n v a d src).
Proof. reflexivity. Qed.

Lemma restore_all_default_rate (saved : list emotion_dict) :
  Forall default_rate (fst (restore_all saved)).
Proof.
  induction saved as [|e_data rest IH]; simpl; [constructor|].
  unfold restored.
  destruct (j_name e_data), (j_valence e_data), (j_arousal e_data),
           (j_source e_data), (j_timestamp e_data); simpl;
    constructor; [reflexivity | exact IH].
Qed.

Lemma add_or_update_memory (stimulus : EmergentEmotion) (self : EmotionalCore) :
  memory (_add_or_update_emotion stimulus self) = memory self.
Proof.
  unfold _add_or_update_emotion.
  destruct (blend_existing stimulus (current_emotions self)); reflexivity.
Qed.

Lemma mutate_default_memory (m : mutation) (self : EmotionalCore) :
  default_memory (memory self) -> default_memory (memory (mutate m self)).
Proof.
  intros H. destruct m; simpl.
  - now rewrite add_or_update_memory.
  - unfold process_emotional_cycle.
    set (self2 := if Py.ltb roll 0.1 then _ else _).
    assert (H2 : default_memory (memory self2)).
    { subst self2. destruct (Py.ltb roll 0.1); [|exact H].
      unfold _add_random_fluctuation. now rewrite add_or_update_memory. }
    destruct (get_dominant_emotion self2); exact H2.
  - unfold update_from_garden.
    destruct (Py.ltb 0.7 _), (0 <? _)%Z;
      rewrite ?add_or_update_memory; exact H.
  - unfold update_from_interaction.
    destruct (String.eqb interaction_type "query");
      rewrite ?add_or_update_memory; exact H.
Qed.

(** Every state of a session carries the defaults of the dataclasses, which
    the theorems on decay, snapshots and persistence take as hypotheses. *)
Lemma reachable_defaults (c : EmotionalCore) :
  reachable c -> default_rates c /\ default_memory (memory c).
Proof.
  induction 1 as [u t1 t2 g | m c Hm _ [IHr IHm] | filepath fs c _ [IHr IHm]].
  - split; [repeat constructor | split; reflexivity].
  - split; [|now apply mutate_default_memory].
    apply (mutate_Forall default_rate
             default_rate_update default_rate_decay default_rate_new);
      [|exact IHr].
    destruct m; exact Hm || exact I.
  - rewrite load_state_cases.
    destruct (fs !! filepath) as [[state| |]|]; simpl; try (split; assumption).
    + destruct (snd (restore_all _)); simpl;
        (split; [apply restore_all_default_rate | exact IHm]).
    + split; [constructor | exact IHm].
Qed.

(** * Further properties *)

(** ** The shape of an insertion *)

Lemma blend_existing_shape (stimulus : EmergentEmotion) (l l' : list EmergentEmotion) :
  blend_existing stimulus l = Some l' ->
  exists l1 e l2,
    l = l1 ++ e :: l2
    /\ l' = l1 ++ update e (valence stimulus) (arousal stimulus) :: l2
    /\ name e = name stimulus.
Proof.
  revert l'. induction l as [|x l IH]; intros l'; simpl; [discriminate|].
  destruct (String.eqb (name x) (name stimulus)) eqn:E.
  - intros [= <-]. exists [], x, l. apply String.eqb_eq in E. auto.
  - destruct (blend_existing stimulus l) as [r|]; simpl; [|discriminate].
    intros [= <-]. destruct (IH r eq_refl) as (l1 & e & l2 & -> & -> & He).
    exists (x :: l1), e, l2. auto.
Qed.

Lemma blend_existing_none (stimulus : EmergentEmotion) (l : list EmergentEmotion) :
  blend_existing stimulus l = None ->
  Forall (fun x => name x <> name stimulus) l.
Proof.
  induction l as [|x l IH]; simpl; [constructor|].
  destruct (String.eqb (name x) (name stimulus)) eqn:E; [discriminate|].
  destruct (blend_existing stimulus l); [discriminate|].
  intros _. constructor; [now apply String.eqb_neq | now apply IH].
Qed.

Lemma append_and_limit_shape (stimulus : EmergentEmotion) (l : list EmergentEmotion) :
  ((length l < 5)%nat /\ append_and_limit stimulus l = l ++ [stimulus])
  \/ ((5 <= length l)%nat
      /\ exists l1 w l2,
           l ++ [stimulus] = l1 ++ w :: l2
           /\ append_and_limit stimulus l = l1 ++ l2
           /\ Forall (fun x => arousal w < arousal x) l1
           /\ Forall (fun x => arousal w <= arousal x) l2).
Proof.
  unfold append_and_limit.
  assert (Hlen : length (l ++ [stimulus]) = S (length l)).
  { rewrite length_app. simpl. lia. }
  rewrite Hlen.
  destruct (Nat.ltb_spec 5 (S (length l))) as [Hfull|Hroom].
  - right. split; [lia|].
    destruct (Py.min_by arousal (l ++ [stimulus])) as [w|] eqn:E.
    + destruct (min_by_split arousal _ _ E) as (l1 & l2 & Heq & H1 & H2).
      exists l1, w, l2. rewrite Heq at 2.
      rewrite (remove_first_weakest _ _ _ H1). auto.
    + destruct l; discriminate.
  - left. split; [lia | reflexivity].
Qed.

Lemma append_and_limit_length (stimulus : EmergentEmotion) (l : list EmergentEmotion) :
  length (append_and_limit stimulus l)
  = if (length l <? 5)%nat then S (length l) else length l.
Proof.
  destruct (append_and_limit_shape stimulus l)
    as [[Hlt ->] | (Hge & l1 & w & l2 & Heq & -> & _)].
  - destruct (Nat.ltb_spec (length l) 5); [|lia].
    rewrite length_app. simpl. lia.
  - destruct (Nat.ltb_spec (length l) 5); [lia|].
    apply (f_equal (@length _)) in Heq.
    rewrite !length_app in Heq. simpl in Heq. rewrite length_app. lia.
Qed.

Lemma add_or_update_length (stimulus : EmergentEmotion) (self : EmotionalCore) :
  (length (current_emotions (_add_or_update_emotion stimulus self))
   <= Nat.max 5 (length (current_emotions self)))%nat.
Proof.
  unfold _add_or_update_emotion.
  destruct (blend_existing stimulus (current_emotions self)) as [l'|] eqn:E; simpl.
  - destruct (blend_existing_shape _ _ _ E) as (l1 & e & l2 & -> & -> & _).
    rewrite !length_app. simpl. lia.
  - rewrite append_and_limit_length.
    destruct (Nat.ltb_spec (length (current_emotions self)) 5); lia.
Qed.

Lemma filter_shorter {A : Type} (p : A -> bool) (l : list A) :
  (length (List.filter p l) <= length l)%nat.
Proof.
  induction l as [|x l IH]; simpl; [lia|]. destruct (p x); simpl; lia.
Qed.

(** X1.  No mutation leaves more impulses than the larger of 5 and the count
    it found: a set within the capacity of five stays within it, and a set
    that a loaded file made larger never grows. *)
Theorem mutations_respect_capacity (m : mutation) (self : EmotionalCore) :
  (length (current_emotions (mutate m self))
   <= Nat.max 5 (length (current_emotions self)))%nat.
Proof.
  destruct m as [stimulus | roll pick now | garden t_awe t_joy | kind sentiment now];
    simpl.
  - apply add_or_update_length.
  - unfold process_emotional_cycle.
    set (self1 := set_current_emotions (map decay (current_emotions self)) self).
    assert (H1 : length (current_emotions self1) = length (current_emotions self)).
    { apply length_map. }
    set (self2 := if Py.ltb roll 0.1 then _ else _).
    assert (H2 : (length (current_emotions self2)
                  <= Nat.max 5 (length (current_emotions self)))%nat).
    { subst self2. destruct (Py.ltb roll 0.1); [|lia].
      unfold _add_random_fluctuation.
      etransitivity; [apply add_or_update_length|]. lia. }
    clearbody self2.
    destruct (get_dominant_emotion self2); simpl;
      (etransitivity; [apply filter_shorter | exact H2]).
  - unfold update_from_garden.
    set (self1 := if Py.ltb 0.7 _ then _ else _).
    assert (H1 : (length (current_emotions self1)
                  <= Nat.max 5 (length (current_emotions self)))%nat).
    { subst self1. destruct (Py.ltb 0.7 _); [apply add_or_update_length | lia]. }
    clearbody self1.
    destruct (0 <? _)%Z; [|exact H1].
    etransitivity; [apply add_or_update_length|]. lia.
  - unfold update_from_interaction.
    destruct (String.eqb kind "query"); [apply add_or_update_length | lia].
Qed.

(** ** Properties of the list of impulses that every mutation keeps *)

Section ListInvariant.
Context (Good : list EmergentEmotion -> Prop).
Hypothesis Good_blend :
  forall l1 e l2 v a, Good (l1 ++ e :: l2) -> Good (l1 ++ update e v a :: l2).
Hypothesis Good_drop : forall l1 w l2, Good (l1 ++ w :: l2) -> Good (l1 ++ l2).
Hypothesis Good_decay : forall l, Good l -> Good (map decay l).

Lemma Good_filter (p : EmergentEmotion -> bool) (l : list EmergentEmotion) :
  forall pre, Good (pre ++ l) -> Good (pre ++ List.filter p l).
Proof.
  induction l as [|x l IH]; intros pre H; simpl; [exact H|].
  destruct (p x).
  - change (pre ++ x :: List.filter p l) with (pre ++ [x] ++ List.filter p l).
    rewrite app_assoc. apply IH. now rewrite <- app_assoc.
  - apply IH. now apply Good_drop in H.
Qed.

Lemma Good_add_or_update (stimulus : EmergentEmotion) (self : EmotionalCore) :
  Good (current_emotions self) ->
  fits Good (timestamp stimulus) (current_emotions self) ->
  Good (current_emotions (_add_or_update_emotion stimulus self)).
Proof.
  intros H Hfit. unfold _add_or_update_emotion.
  destruct (blend_existing stimulus (current_emotions self)) as [l'|] eqn:E; simpl.
  - destruct (blend_existing_shape _ _ _ E) as (l1 & e & l2 & Heq & -> & _).
    apply Good_blend. now rewrite <- Heq.
  - specialize (Hfit stimulus eq_refl E).
    destruct (append_and_limit_shape stimulus (current_emotions self))
      as [[_ ->] | (_ & l1 & w & l2 & Heq & -> & _)]; [exact Hfit|].
    apply (Good_drop l1 w l2). now rewrite <- Heq.
Qed.

Lemma Good_mutate (m : mutation) (self : EmotionalCore) :
  Good (current_emotions self) ->
  match m with
  | ApplyStimulus stimulus => fits Good (timestamp stimulus) (current_emotions self)
  | DecayCycle _ _ now => fits Good now (map decay (current_emotions self))
  | RecordFromGarden _ t_awe t_joy =>
      fits Good t_awe (current_emotions self)
      /\ (forall awe, timestamp awe = t_awe ->
                      fits Good t_joy (current_emotions (_add_or_update_emotion awe self)))
      /\ fits Good t_joy (current_emotions self)
  | RecordFromInteraction _ _ now => fits Good now (current_emotions self)
  end ->
  Good (current_emotions (mutate m self)).
Proof.
  intros H.
  destruct m as [stimulus | roll pick now | garden t_awe t_joy | kind sentiment now];
    simpl; intros Hfit.
  - now apply Good_add_or_update.
  - unfold process_emotional_cycle.
    set (self1 := set_current_emotions (map decay (current_emotions self)) self).
    set (self2 := if Py.ltb roll 0.1 then _ else _).
    assert (H2 : Good (current_emotions self2)).
    { subst self2. destruct (Py.ltb roll 0.1); [|now apply Good_decay].
      unfold _add_random_fluctuation. apply Good_add_or_update.
      - now apply Good_decay.
      - repeat match goal with
               | |- context [if ?b then _ else _] => destruct b
               end; exact Hfit. }
    clearbody self2.
    destruct (get_dominant_emotion self2); simpl; now apply (Good_filter _ _ []).
  - destruct Hfit as (Hawe & Hboth & Hjoy). unfold update_from_garden.
    destruct (Py.ltb 0.7 _), (0 <? _)%Z; try assumption.
    + apply Good_add_or_update; [now apply Good_add_or_update|].
      now apply Hboth.
    + now apply Good_add_or_update.
    + now apply Good_add_or_update.
  - unfold update_from_interaction.
    destruct (String.eqb kind "query"); [|assumption].
    apply Good_add_or_update; [assumption|].
    destruct (Py.ltb (Qabs sentiment) 0.3); [|destruct (Py.ltb 0.3 sentiment)];
      exact Hfit.
Qed.
End ListInvariant.

(** *** Names *)

Lemma NoDup_snoc {A : Type} (l : list A) (a : A) :
  List.NoDup l -> ~ In a l -> List.NoDup (l ++ [a]).
Proof.
  induction 1 as [|x l Hx Hl IH]; intros Ha; simpl.
  - constructor; [intros [] | constructor].
  - constructor.
    + rewrite in_app_iff. simpl. intros [H|[H|[]]]; [now apply Hx|].
      apply Ha. now left.
    + apply IH. intros H. apply Ha. now right.
Qed.

Lemma unique_names_fit (t : Q) (l : list EmergentEmotion) :
  List.NoDup (map name l) -> fits (fun l => List.NoDup (map name l)) t l.
Proof.
  intros H s _ Hnone. rewrite map_app. simpl.
  apply NoDup_snoc; [exact H|].
  apply blend_existing_none in Hnone.
  rewrite in_map_iff. intros (x & Hname & Hx).
  rewrite List.Forall_forall in Hnone. now apply (Hnone x Hx).
Qed.

Lemma unique_names_blend (l1 : list EmergentEmotion) (e : EmergentEmotion)
    (l2 : list EmergentEmotion) (v a : Q) :
  List.NoDup (map name (l1 ++ e :: l2)) -> List.NoDup (map name (l1 ++ update e v a :: l2)).
Proof. now rewrite !map_app. Qed.

Lemma unique_names_drop (l1 : list EmergentEmotion) (w : EmergentEmotion)
    (l2 : list EmergentEmotion) :
  List.NoDup (map name (l1 ++ w :: l2)) -> List.NoDup (map name (l1 ++ l2)).
Proof. rewrite !map_app. simpl. apply List.NoDup_remove_1. Qed.

Lemma unique_names_decay (l : list EmergentEmotion) :
  List.NoDup (map name l) -> List.NoDup (map name (map decay l)).
Proof. now rewrite map_map. Qed.

(** X2.  Every mutation keeps the names of the impulses pairwise distinct: a
    stimulus whose name is already held is blended into that impulse, never
    added beside it. *)
Theorem mutations_keep_names_unique (m : mutation) (self : EmotionalCore)
    (Hunique : List.NoDup (map name (current_emotions self))) :
  List.NoDup (map name (current_emotions (mutate m self))).
Proof.
  apply (Good_mutate (fun l => List.NoDup (map name l))
           unique_names_blend unique_names_drop unique_names_decay);
    [exact Hunique|].
  destruct m; simpl.
  - now apply unique_names_fit.
  - apply unique_names_fit. now apply unique_names_decay.
  - split; [now apply unique_names_fit|]. split; [|now apply unique_names_fit].
    intros awe _. apply unique_names_fit.
    apply (Good_add_or_update (fun l => List.NoDup (map name l))
             unique_names_blend unique_names_drop);
      [assumption | now apply unique_names_fit].
  - now apply unique_names_fit.
Qed.

(** A second positive query after a first: "engagement" is held once. *)
Lemma mutations_keep_names_unique_witness :
  List.NoDup (map name (current_emotions
                     (mutate (RecordFromInteraction "query" 0.9 103)
                        (mutate (RecordFromInteraction "query" 0.8 102)
                           (init 0.2 100 101 0))))).
Proof.
  apply (mutations_keep_names_unique (RecordFromInteraction "query" 0.9 103)).
  simpl. repeat constructor; simpl; intuition discriminate.
Defined.

(** *** Order of creation *)

Lemma chronological_timestamps (l : list EmergentEmotion) :
  chronological l <-> StronglySorted Qle (map timestamp l).
Proof.
  unfold chronological. induction l as [|x l IH]; simpl.
  - split; intros _; constructor.
  - split; intros H; apply StronglySorted_inv in H as [Hl Hx]; constructor.
    + now apply IH.
    + rewrite List.Forall_map. exact Hx.
    + now apply IH.
    + rewrite List.Forall_map in Hx. exact Hx.
Qed.

Lemma sorted_drop {A : Type} (R : A -> A -> Prop) (l1 : list A) (w : A) (l2 : list A) :
  StronglySorted R (l1 ++ w :: l2) -> StronglySorted R (l1 ++ l2).
Proof.
  induction l1 as [|x l1 IH]; simpl; intros H; apply StronglySorted_inv in H as [Hl Hx].
  - exact Hl.
  - constructor; [now apply IH|].
    apply Forall_app in Hx as [H1 H2]. apply Forall_app. split; [exact H1|].
    now inversion H2.
Qed.

Lemma sorted_snoc {A : Type} (R : A -> A -> Prop) (l : list A) (a : A) :
  StronglySorted R l -> Forall (fun x => R x a) l -> StronglySorted R (l ++ [a]).
Proof.
  induction 1 as [|x l Hl IH Hx]; intros Ha; simpl.
  - repeat constructor.
  - inversion Ha as [|? ? Hxa Hla]; subst. constructor; [now apply IH|].
    apply Forall_app. split; [exact Hx | now constructor].
Qed.

Lemma chronological_blend (l1 : list EmergentEmotion) (e : EmergentEmotion)
    (l2 : list EmergentEmotion) (v a : Q) :
  chronological (l1 ++ e :: l2) -> chronological (l1 ++ update e v a :: l2).
Proof. rewrite !chronological_timestamps, !map_app. exact (fun H => H). Qed.

Lemma chronological_drop (l1 : list EmergentEmotion) (w : EmergentEmotion)
    (l2 : list EmergentEmotion) :
  chronological (l1 ++ w :: l2) -> chronological (l1 ++ l2).
Proof. apply sorted_drop. Qed.

Lemma chronological_decay (l : list EmergentEmotion) :
  chronological l -> chronological (map decay l).
Proof. rewrite !chronological_timestamps, map_map. exact (fun H => H). Qed.

Lemma chronological_fit (t : Q) (l : list EmergentEmotion) :
  chronological l -> Forall (fun e => timestamp e <= t) l -> fits chronological t l.
Proof.
  intros Hl Ht s Hs _. apply sorted_snoc; [exact Hl|].
  eapply List.Forall_impl; [|exact Ht]. simpl. intros e He. now rewrite Hs.
Qed.

Lemma created_before_blend (t : Q) (e : EmergentEmotion) (v a : Q) :
  timestamp e <= t -> timestamp (update e v a) <= t.
Proof. exact (fun H => H). Qed.

(** X3.  With a clock that does not run backwards the impulses stay listed in
    the order of their creation: if the list is in that order and the clock
    readings of a mutation are not before the creation of any impulse held
    (and, for the garden, the second reading not before the first), the list
    is in that order afterwards. *)
Theorem mutations_keep_creation_order (m : mutation) (self : EmotionalCore)
    (Hsorted : chronological (current_emotions self))
    (Hclock : timely m self) :
  chronological (current_emotions (mutate m self)).
Proof.
  apply (Good_mutate chronological
           chronological_blend chronological_drop chronological_decay);
    [exact Hsorted|].
  destruct m as [stimulus | roll pick now | garden t_awe t_joy | kind sentiment now];
    simpl in Hclock |- *.
  - now apply chronological_fit.
  - apply chronological_fit; [now apply chronological_decay|].
    apply List.Forall_map. exact Hclock.
  - destruct Hclock as [Hawe Horder].
    assert (Hjoy : Forall (fun e => timestamp e <= t_joy) (current_emotions self)).
    { eapply List.Forall_impl; [|exact Hawe]. simpl. intros e He. lra. }
    split; [now apply chronological_fit|]. split; [|now apply chronological_fit].
    intros awe Ht. apply chronological_fit.
    + apply (Good_add_or_update chronological
               chronological_blend chronological_drop); [exact Hsorted|].
      rewrite Ht. now apply chronological_fit.
    + apply (add_or_update_Forall (fun e => timestamp e <= t_joy)
               (created_before_blend t_joy)); [|exact Hjoy].
      rewrite Ht. exact Horder.
  - now apply chronological_fit.
Qed.

(** A garden update at times 102 and 103 after construction at 100 and
    101. *)
Lemma mutations_keep_creation_order_witness :
  chronological
    (current_emotions
       (mutate (RecordFromGarden {| g_complexity := Some 0.8; g_blooms := Some 3%Z |}
                  102 103)
          (init 0.2 100 101 0))).
Proof.
  apply mutations_keep_creation_order.
  - repeat constructor. simpl. lra.
  - simpl. split; [|lra]. repeat constructor; simpl; lra.
Defined.

(** ** Which impulse wins, which impulse goes *)

Section FirstMaximum.
Context {A : Type} (key : A -> Q).

Lemma max_from_split (l : list A) :
  forall (best : A) (p1 p2 : list A),
    Forall (fun x => key x < key best) p1 ->
    Forall (fun x => key x <= key best) p2 ->
    exists l1 l2,
      p1 ++ best :: p2 ++ l = l1 ++ Py.max_from key best l :: l2
      /\ Forall (fun x => key x < key (Py.max_from key best l)) l1
      /\ Forall (fun x => key x <= key (Py.max_from key best l)) l2.
Proof.
  induction l as [|x l IH]; intros best p1 p2 H1 H2; simpl.
  - exists p1, p2. now rewrite app_nil_r.
  - ltb_split (key best) (key x).
    + destruct (IH x (p1 ++ best :: p2) []) as (l1 & l2 & Heq & Hl1 & Hl2).
      * apply Forall_app. split; [|constructor; [assumption|]].
        -- eapply List.Forall_impl; [|exact H1]. simpl. intros; lra.
        -- eapply List.Forall_impl; [|exact H2]. simpl. intros; lra.
      * constructor.
      * exists l1, l2. split; [|now split].
        rewrite <- Heq. simpl. now rewrite <- app_assoc.
    + destruct (IH best p1 (p2 ++ [x])) as (l1 & l2 & Heq & Hl1 & Hl2).
      * assumption.
      * apply Forall_app. split; [assumption | now constructor].
      * exists l1, l2. split; [|now split].
        rewrite <- Heq. now rewrite <- app_assoc.
Qed.
End FirstMaximum.

(** X4.  Among impulses of equal score the dominant one is the first of the
    list: every impulse listed before the dominant impulse scores strictly
    less, every impulse listed after it scores at most as much. *)
Theorem dominant_is_first_of_best (self : EmotionalCore) :
  match get_dominant_emotion self with
  | None => True
  | Some d =>
      exists l1 l2,
        current_emotions self = l1 ++ d :: l2
        /\ Forall (fun x => selection_score x < selection_score d) l1
        /\ Forall (fun x => selection_score x <= selection_score d) l2
  end.
Proof.
  unfold get_dominant_emotion.
  destruct (current_emotions self) as [|x l]; [exact I|]. simpl.
  destruct (max_from_split score l x [] []) as (l1 & l2 & Heq & H1 & H2);
    [constructor | constructor |].
  exists l1, l2. split; [exact Heq|].
  split; (eapply List.Forall_impl; [|eassumption]); simpl; intros e He;
    now rewrite !selection_score_score.
Qed.

Lemma snoc_cases {A : Type} (l : list A) :
  l = [] \/ exists l' z, l = l' ++ [z].
Proof.
  induction l as [|x l [->|(l' & z & ->)]].
  - now left.
  - right. now exists [], x.
  - right. now exists (x :: l'), z.
Qed.

(** X5.  A stimulus of a new name offered to a set that already holds five
    impulses or more is turned away when every impulse held has a strictly
    higher arousal: the set is left exactly as it was.  As soon as one impulse
    held has an arousal not above that of the stimulus, the stimulus is kept,
    as the last of the list, and one of the impulses held before goes. *)
Theorem weak_stimulus_is_turned_away (stimulus : EmergentEmotion) (self : EmotionalCore)
    (Hnew : Forall (fun x => name x <> name stimulus) (current_emotions self))
    (Hfull : (5 <= length (current_emotions self))%nat) :
  let after := current_emotions (_add_or_update_emotion stimulus self) in
  (Forall (fun x => arousal stimulus < arousal x) (current_emotions self) ->
   after = current_emotions self)
  /\ (Exists (fun x => arousal x <= arousal stimulus) (current_emotions self) ->
      exists kept,
        after = kept ++ [stimulus]
        /\ S (length kept) = length (current_emotions self)
        /\ incl kept (current_emotions self)).
Proof.
  intros after. subst after. unfold _add_or_update_emotion.
  rewrite (blend_existing_absent _ _ Hnew). simpl.
  destruct (append_and_limit_shape stimulus (current_emotions self))
    as [[Hlt _] | (_ & l1 & w & l2 & Heq & -> & H1 & H2)]; [lia|].
  destruct (snoc_cases l2) as [-> | (l2' & z & ->)].
  - apply app_inj_tail in Heq as [Hl Hw]. subst w. split.
    + intros _. now rewrite app_nil_r.
    + intros Hex. exfalso. rewrite Hl in Hex.
      apply List.Exists_exists in Hex as (x & Hx & Hle).
      rewrite List.Forall_forall in H1. specialize (H1 x Hx). lra.
  - change (l1 ++ w :: l2' ++ [z]) with (l1 ++ (w :: l2') ++ [z]) in Heq.
    rewrite app_assoc in Heq. apply app_inj_tail in Heq as [Hl Hz]. subst z.
    split.
    + intros Hall. exfalso. rewrite Hl in Hall.
      apply Forall_app in Hall as [_ Hall]. inversion Hall as [|? ? Hw _]; subst.
      apply Forall_app in H2 as [_ H2]. inversion H2 as [|? ? Hs _]; subst. lra.
    + intros _. exists (l1 ++ l2'). split; [now rewrite app_assoc|].
      split.
      * rewrite Hl, !length_app. simpl. lia.
      * rewrite Hl. intros x Hx. apply in_app_iff in Hx.
        apply in_app_iff. simpl. tauto.
Qed.

(** Five impulses of arousal 0.5 and a stimulus of arousal 0.1. *)
Lemma weak_stimulus_is_turned_away_witness :
  let held :=
    [new_emotion 1 "a" 0.5 0.5 0.5 "s"; new_emotion 2 "b" 0.5 0.5 0.5 "s";
     new_emotion 3 "c" 0.5 0.5 0.5 "s"; new_emotion 4 "d" 0.5 0.5 0.5 "s";
     new_emotion 5 "e" 0.5 0.5 0.5 "s"] in
  let self := set_current_emotions held (init 0.2 100 101 0) in
  current_emotions
    (_add_or_update_emotion (new_emotion 6 "faint" 0.1 0.1 0.5 "s") self)
  = held.
Proof.
  intros held self.
  destruct (weak_stimulus_is_turned_away (new_emotion 6 "faint" 0.1 0.1 0.5 "s") self)
    as [H _].
  - repeat constructor; discriminate.
  - simpl. lia.
  - apply H. repeat constructor; simpl; lra.
Defined.

(** ** Repeated blending *)

Lemma blend_times_range (k : nat) (v a : Q) (e : EmergentEmotion) :
  -1 <= valence e <= 1 -> 0 <= arousal e <= 1 ->
  -1 <= valence (blend_times k v a e) <= 1
  /\ 0 <= arousal (blend_times k v a e) <= 1.
Proof.
  intros Hv Ha. destruct k as [|k]; [split; assumption|].
  unfold blend_times. simpl Nat.iter.
  destruct (update_clamps (Nat.iter k (fun x => update x v a) e) v a) as [H1 H2].
  tauto.
Qed.

Lemma pow_succ (q : Q) (k : nat) :
  ~ q == 0 -> q ^ Z.of_nat (S k) == q ^ Z.of_nat k * q.
Proof.
  intros Hq. rewrite Nat2Z.inj_succ. unfold Z.succ.
  rewrite Qpower_plus by exact Hq. reflexivity.
Qed.

(** X6.  Blending moves an impulse towards the stimulus and keeps 30% of the
    distance: after [k] blends of the same in-range stimulus, the valence and
    the arousal are at 0.3^k of their initial distance from the values of the
    stimulus; the name, the dominance and the time of creation do not
    change. *)
Theorem repeated_blend_converges (k : nat) (v a : Q) (e : EmergentEmotion)
    (Hv : -1 <= valence e <= 1) (Ha : 0 <= arousal e <= 1)
    (Hnv : -1 <= v <= 1) (Hna : 0 <= a <= 1) :
  valence (blend_times k v a e) - v == 0.3 ^ Z.of_nat k * (valence e - v)
  /\ arousal (blend_times k v a e) - a == 0.3 ^ Z.of_nat k * (arousal e - a)
  /\ name (blend_times k v a e) = name e
  /\ dominance (blend_times k v a e) = dominance e
  /\ timestamp (blend_times k v a e) = timestamp e.
Proof.
  induction k as [|k (IHv & IHa & IHn & IHd & IHt)].
  - simpl. repeat split; ring.
  - destruct (blend_times_range k v a e Hv Ha) as [Hkv Hka].
    destruct (update_convex (blend_times k v a e) v a Hkv Hnv Hka Hna) as [Ev Ea].
    change (blend_times (S k) v a e) with (update (blend_times k v a e) v a).
    assert (Hp : 0.3 ^ Z.of_nat (S k) == 0.3 ^ Z.of_nat k * 0.3).
    { apply pow_succ. intros H. discriminate H. }
    split; [|split; [|repeat split; assumption]].
    + rewrite Ev, Hp.
      assert (E : 0.3 * valence (blend_times k v a e) + 0.7 * v - v
                  == 0.3 * (valence (blend_times k v a e) - v)) by ring.
      rewrite E, IHv. ring.
    + rewrite Ea, Hp.
      assert (E : 0.3 * arousal (blend_times k v a e) + 0.7 * a - a
                  == 0.3 * (arousal (blend_times k v a e) - a)) by ring.
      rewrite E, IHa. ring.
Qed.

(** Curiosity blended three times with the stimulus (0.1, 0.2). *)
Lemma repeated_blend_converges_witness :
  let curiosity := new_emotion 100 "curiosity" 0.7 0.6 0.4 "system_init" in
  valence (blend_times 3 0.1 0.2 curiosity) - 0.1
  == 0.3 ^ Z.of_nat 3 * (valence curiosity - 0.1).
Proof.
  intros curiosity.
  apply (repeated_blend_converges 3 0.1 0.2 curiosity); simpl; lra.
Defined.

(** ** The history *)

Lemma last_n_all {A : Type} (n : nat) (l : list A) :
  (length l <= n)%nat -> Py.last_n n l = l.
Proof.
  intros H. unfold Py.last_n.
  replace (length l - n)%nat with 0%nat by lia. reflexivity.
Qed.

Lemma last_n_length {A : Type} (n : nat) (l : list A) :
  length (Py.last_n n l) = Nat.min n (length l).
Proof. unfold Py.last_n. rewrite length_skipn. lia. Qed.

Lemma last_n_app_last_n {A : Type} (n : nat) (l r : list A) :
  Py.last_n n (Py.last_n n l ++ r) = Py.last_n n (l ++ r).
Proof.
  unfold Py.last_n.
  assert (E : skipn (length l - n) l ++ r = skipn (length l - n) (l ++ r)).
  { rewrite skipn_app.
    replace (length l - n - length l)%nat with 0%nat by lia. reflexivity. }
  rewrite E, skipn_skipn, length_skipn, !length_app. f_equal. lia.
Qed.

Lemma add_memory_last_n (m : EmotionalMemory) (d : EmergentEmotion) :
  max_history m = 100%nat ->
  (length (emotional_history m) <= 100)%nat ->
  emotional_history (add_memory m d)
  = Py.last_n 100 (emotional_history m ++ [snapshot_of d]).
Proof.
  intros Hmax Hlen. rewrite (add_memory_history m d Hmax).
  destruct (Nat.ltb_spec (length (emotional_history m)) 100) as [Hlt|Hge].
  - rewrite last_n_all; [reflexivity|]. rewrite length_app. simpl. lia.
  - unfold Py.last_n. rewrite length_app. simpl length.
    replace (length (emotional_history m) + 1 - 100)%nat with 1%nat by lia.
    reflexivity.
Qed.

(** X7.  The history is a queue of capacity 100: starting from a history of
    at most 100 entries, after any number of [add_memory] calls it holds the
    last 100 of the old entries followed by the snapshots of the impulses
    recorded, in the order of recording, and never more than 100 entries. *)
Theorem history_keeps_last_hundred
    (ds : list EmergentEmotion) (m : EmotionalMemory)
    (Hmax : max_history m = 100%nat)
    (Hlen : (length (emotional_history m) <= 100)%nat) :
  emotional_history (fold_left add_memory ds m)
  = Py.last_n 100 (emotional_history m ++ map snapshot_of ds)
  /\ (length (emotional_history (fold_left add_memory ds m)) <= 100)%nat.
Proof.
  assert (H : emotional_history (fold_left add_memory ds m)
              = Py.last_n 100 (emotional_history m ++ map snapshot_of ds)).
  { revert m Hmax Hlen. induction ds as [|d ds IH]; intros m Hmax Hlen; simpl.
    - rewrite app_nil_r. symmetry. now apply last_n_all.
    - rewrite IH.
      + rewrite (add_memory_last_n m d Hmax Hlen), last_n_app_last_n.
        now rewrite <- app_assoc.
      + exact Hmax.
      + rewrite (add_memory_last_n m d Hmax Hlen), last_n_length. lia. }
  split; [exact H|]. rewrite H, last_n_length. lia.
Qed.

(** Two impulses recorded into the empty history. *)
Lemma history_keeps_last_hundred_witness :
  let joy := new_emotion 1 "joy" 0.8 0.7 0.3 "s" in
  let fear := new_emotion 2 "fear" (-0.2) 0.9 0.3 "s" in
  emotional_history (fold_left add_memory [joy; fear] new_memory)
  = Py.last_n 100 ([] ++ map snapshot_of [joy; fear]).
Proof.
  intros joy fear.
  apply (history_keeps_last_hundred [joy; fear] new_memory).
  - reflexivity.
  - simpl. lia.
Defined.

(** ** The mood bias *)

Lemma Forall_skipn_keeps {A : Type} (P : A -> Prop) (k : nat) (l : list A) :
  Forall P l -> Forall P (skipn k l).
Proof.
  revert k. induction l as [|x l IH]; intros [|k] H; simpl; try assumption.
  apply IH. now inversion H.
Qed.

Lemma count_succ (k : nat) :
  inject_Z (Z.of_nat (S k)) == inject_Z (Z.of_nat k) + 1.
Proof. rewrite Nat2Z.inj_succ. unfold Z.succ. now rewrite inject_Z_plus. Qed.

Lemma count_nonneg (k : nat) : 0 <= inject_Z (Z.of_nat k).
Proof. change 0 with (inject_Z 0). rewrite <- Zle_Qle. lia. Qed.

Lemma sum_valence_range (recent : list memory_dict) :
  forall acc : Q,
    Forall (fun e => exists v, m_valence e = Some v /\ -1 <= v <= 1) recent ->
    exists total,
      sum_valence acc recent = Py.Ok total
      /\ acc - inject_Z (Z.of_nat (length recent)) <= total
      /\ total <= acc + inject_Z (Z.of_nat (length recent)).
Proof.
  induction recent as [|e recent IH]; intros acc H.
  - exists acc. split; [reflexivity|].
    change (inject_Z (Z.of_nat (length (@nil memory_dict)))) with 0. lra.
  - inversion H as [|? ? (v & Hv & Hrange) Hrest]; subst.
    destruct (IH (acc + v) Hrest) as (total & Hsum & Hlo & Hhi).
    exists total. simpl sum_valence. rewrite Hv. simpl.
    split; [exact Hsum|].
    change (length (e :: recent)) with (S (length recent)).
    rewrite count_succ. lra.
Qed.

(** X8.  When the history entries carry valences within [-1, 1] and the
    memory weight is the default 0.2, [get_mood_bias] returns a bias within
    [-0.2, 0.2]; it does not raise. *)
Theorem mood_bias_is_bounded (m : EmotionalMemory)
    (Hweight : memory_weight m = 0.2)
    (Hentries : Forall (fun e => exists v, m_valence e = Some v /\ -1 <= v <= 1)
                  (emotional_history m)) :
  exists bias, get_mood_bias m = Py.Ok bias /\ -0.2 <= bias /\ bias <= 0.2.
Proof.
  rewrite get_mood_bias_recent.
  assert (Hrecent : Forall (fun e => exists v, m_valence e = Some v /\ -1 <= v <= 1)
                      (Py.last_n 10 (emotional_history m))).
  { unfold Py.last_n. now apply Forall_skipn_keeps. }
  destruct (Py.last_n 10 (emotional_history m)) as [|x recent].
  - exists 0. split; [reflexivity | lra].
  - destruct (sum_valence_range (x :: recent) 0 Hrecent) as (total & Hsum & Hlo & Hhi).
    cbv beta iota zeta. rewrite Hsum, Hweight. eexists. split; [reflexivity|].
    set (n := inject_Z (Z.of_nat (length (x :: recent)))) in *.
    assert (Hn : 0 < n).
    { subst n. change (length (x :: recent)) with (S (length recent)).
      rewrite count_succ. pose proof (count_nonneg (length recent)). lra. }
    assert (Hq : -1 <= total / n /\ total / n <= 1).
    { split.
      - apply Qle_shift_div_l; [exact Hn | lra].
      - apply Qle_shift_div_r; [exact Hn | lra]. }
    lra.
Qed.

(** The history after one quiet cycle from the initial state. *)
Lemma mood_bias_is_bounded_witness :
  exists bias,
    get_mood_bias (memory (process_emotional_cycle 0.5 0 102 (init 0.2 100 101 0)))
    = Py.Ok bias
    /\ -0.2 <= bias /\ bias <= 0.2.
Proof.
  apply mood_bias_is_bounded.
  - reflexivity.
  - repeat constructor. simpl. eexists. split; [reflexivity | lra].
Defined.

(** ** Snapshots never fail within a session *)

Lemma recorded_add_memory (m : EmotionalMemory) (d : EmergentEmotion) :
  recorded (emotional_history m) -> recorded (emotional_history (add_memory m d)).
Proof.
  intros H. unfold add_memory; simpl.
  assert (Happ : recorded (emotional_history m ++ [snapshot_of d])).
  { apply Forall_app. split; [exact H|]. repeat constructor. discriminate. }
  fold (snapshot_of d).
  destruct (max_history m <? _)%nat; [|exact Happ].
  destruct (emotional_history m ++ [snapshot_of d]); [constructor|].
  now inversion Happ.
Qed.

Lemma recorded_mutate (m : mutation) (self : EmotionalCore) :
  recorded (emotional_history (memory self)) ->
  recorded (emotional_history (memory (mutate m self))).
Proof.
  intros H. destruct m as [stimulus | roll pick now | garden t_awe t_joy | kind s now];
    simpl.
  - now rewrite add_or_update_memory.
  - unfold process_emotional_cycle.
    set (self2 := if Py.ltb roll 0.1 then _ else _).
    assert (H2 : recorded (emotional_history (memory self2))).
    { subst self2. destruct (Py.ltb roll 0.1); [|exact H].
      unfold _add_random_fluctuation. now rewrite add_or_update_memory. }
    destruct (get_dominant_emotion self2); simpl; [|exact H2].
    now apply recorded_add_memory.
  - unfold update_from_garden.
    destruct (Py.ltb 0.7 _), (0 <? _)%Z; rewrite ?add_or_update_memory; exact H.
  - unfold update_from_interaction.
    destruct (String.eqb kind "query"); rewrite ?add_or_update_memory; exact H.
Qed.

Lemma restore_all_saved_complete (es : list EmergentEmotion) :
  snd (restore_all (map saved_entry es)) = None.
Proof. induction es as [|e es IH]; simpl; [reflexivity | exact IH]. Qed.

Lemma load_saved_history (filepath : string) (now : Q) (fs : gmap string file)
    (saver self : EmotionalCore) :
  emotional_history
    (memory (fst (load_state filepath (save_state filepath now saver fs) self)))
  = Py.last_n 20 (emotional_history (memory saver)).
Proof.
  rewrite load_state_cases. unfold save_state. rewrite lookup_insert_eq.
  cbn [j_current_emotions j_memory_history Py.get].
  now rewrite restore_all_saved_complete.
Qed.

Lemma recorded_snapshot (self : EmotionalCore) :
  recorded (emotional_history (memory self)) ->
  exists s, get_emotional_state self = Py.Ok s.
Proof.
  intros H. unfold get_emotional_state. rewrite get_mood_bias_recent.
  assert (Hrecent : recorded (Py.last_n 10 (emotional_history (memory self)))).
  { unfold Py.last_n. now apply Forall_skipn_keeps. }
  destruct (Py.last_n 10 (emotional_history (memory self))) as [|x recent];
    [eexists; reflexivity|].
  assert (Hsum : forall l acc, recorded l -> exists t, sum_valence acc l = Py.Ok t).
  { induction l as [|e l IH]; intros acc Hl; simpl; [eauto|].
    inversion Hl as [|? ? He Hrest]; subst.
    destruct (m_valence e) as [v|]; [|congruence]. simpl. now apply IH. }
  destruct (Hsum (x :: recent) 0 Hrecent) as (t & Ht).
  cbv beta iota zeta. rewrite Ht. eexists. reflexivity.
Qed.

Lemma in_session_recorded (self : EmotionalCore) :
  in_session self -> recorded (emotional_history (memory self)).
Proof.
  induction 1 as [u t1 t2 g | m c _ IH | filepath now fs saver c _ IHs _ IHc].
  - constructor.
  - now apply recorded_mutate.
  - rewrite load_saved_history. unfold Py.last_n. now apply Forall_skipn_keeps.
Qed.

(** X9.  In a session that loads only files written by [save_state], that
    is, after construction, any mutations and any such loads, the snapshot and
    the influenced response never raise: every history entry that the
    snapshot reads carries its valence. *)
Theorem session_snapshot_never_raises (self : EmotionalCore) (base : string)
    (Hsession : in_session self) :
  (exists s, get_emotional_state self = Py.Ok s)
  /\ (exists r, influence_response base self = Py.Ok r).
Proof.
  destruct (recorded_snapshot self (in_session_recorded self Hsession)) as (s & Hs).
  split; [now exists s|].
  unfold influence_response. rewrite Hs.
  destruct (String.eqb (s_mood s) "neutral" && String.eqb (s_energy s) "low");
    [eexists; reflexivity|].
  match goal with
  | |- context [match ?l with [] => _ | _ => _ end] => destruct l
  end; eexists; reflexivity.
Qed.

(** A decay cycle, a save, and a load into a new core. *)
Lemma session_snapshot_never_raises_witness :
  let self := mutate (DecayCycle 0.5 0 102) (init 0.2 100 101 0) in
  exists s,
    get_emotional_state
      (fst (load_state "emotional_state.json"
              (save_state "emotional_state.json" 103 self ∅)
              (init 0.3 200 201 0)))
    = Py.Ok s.
Proof.
  intros self.
  apply (session_snapshot_never_raises _ "").
  apply in_session_load.
  - apply in_session_mutate. apply in_session_init.
  - apply in_session_init.
Defined.

(** ** Impulses expire *)

Lemma pow95_at_most_one (k : nat) : 0 < 0.95 ^ Z.of_nat k /\ 0.95 ^ Z.of_nat k <= 1.
Proof.
  split; [apply Qpower_0_lt; reflexivity|].
  induction k as [|k IH].
  - simpl. lra.
  - rewrite pow_succ by (intros H; discriminate H).
    assert (Hpos : 0 < 0.95 ^ Z.of_nat k) by (apply Qpower_0_lt; reflexivity).
    lra.
Qed.

Lemma pow95_small (n : nat) :
  (59 <= n)%nat -> 0 < 0.95 ^ Z.of_nat n /\ 0.95 ^ Z.of_nat n <= 0.05.
Proof.
  intros Hn. split; [apply Qpower_0_lt; reflexivity|].
  replace n with (59 + (n - 59))%nat by lia.
  rewrite Nat2Z.inj_add, Qpower_plus by (intros H; discriminate H).
  destruct (pow95_at_most_one (n - 59)) as [Hpos Hle].
  assert (H59 : 0.95 ^ Z.of_nat 59 <= 0.05) by (vm_compute; discriminate).
  assert (H59pos : 0 < 0.95 ^ Z.of_nat 59) by (apply Qpower_0_lt; reflexivity).
  set (p := 0.95 ^ Z.of_nat 59) in *. set (q := 0.95 ^ Z.of_nat (n - 59)) in *.
  assert (Hpq : p * q <= p * 1).
  { apply Qmult_le_l; assumption. }
  lra.
Qed.

Lemma filter_none {A : Type} (p : A -> bool) (l : list A) :
  (forall x, In x l -> p x = false) -> List.filter p l = [].
Proof.
  induction l as [|x l IH]; intros H; simpl; [reflexivity|].
  rewrite (H x) by now left. apply IH. intros y Hy. apply H. now right.
Qed.

Lemma expired_after (n : nat) (e : EmergentEmotion) :
  (59 <= n)%nat -> in_bounds e -> default_rate e ->
  lingers (Nat.iter n decay e) = false.
Proof.
  intros Hn ((Hv1 & Hv2) & (Ha1 & Ha2) & _) Hr.
  destruct (iter_decay_scales n e Hr) as (Ev & Ea & _).
  destruct (pow95_small n Hn) as [Hpos Hsmall].
  apply lingers_false. unfold negligible.
  set (p := 0.95 ^ Z.of_nat n) in *.
  split.
  - rewrite (Qabs_wd _ _ Ev), Qabs_Qmult, (Qabs_pos p) by lra.
    assert (Habs : Qabs (valence e) <= 1) by (apply Qabs_Qle_condition; lra).
    assert (H : Qabs (valence e) * p <= 1 * p).
    { apply Qmult_le_compat_r; lra. }
    lra.
  - rewrite Ea.
    assert (H : arousal e * p <= 1 * p).
    { apply Qmult_le_compat_r; lra. }
    lra.
Qed.

(** X10.  Left to decay alone, impulses expire: after 59 quiet cycles or more
    (the fluctuation never firing), no impulse that started within its
    declared bounds is held any more.  59 cannot be lowered: an impulse of
    valence 1 is still held after 58 decays. *)
Theorem quiet_cycles_empty_the_set
    (draws : list (Q * nat * Q)) (self : EmotionalCore)
    (Hquiet : never_fires draws)
    (Hrates : default_rates self)
    (Hbounded : bounded self)
    (Hmany : (59 <= length draws)%nat) :
  current_emotions (cycles draws self) = []
  /\ get_dominant_emotion (cycles draws self) = None
  /\ exists e, in_bounds e /\ default_rate e /\ lingers (Nat.iter 58 decay e) = true.
Proof.
  assert (Hempty : current_emotions (cycles draws self) = []).
  { rewrite (quiet_cycles_emotions draws self Hquiet Hrates).
    destruct (length draws) as [|k] eqn:Ek; [lia|]. unfold survivors.
    assert (Hnone : List.filter (fun e => lingers (Nat.iter (S k) decay e))
                      (current_emotions self) = []).
    { apply filter_none. intros e He.
      unfold bounded in Hbounded. unfold default_rates in Hrates.
      rewrite List.Forall_forall in Hbounded, Hrates.
      apply expired_after; [lia | now apply Hbounded | now apply Hrates]. }
    now rewrite Hnone. }
  split; [exact Hempty|]. split; [now apply dominant_none_iff|].
  exists (new_emotion 0 "awe" 1 0 0 "s").
  split; [|split; [reflexivity | vm_compute; reflexivity]].
  unfold in_bounds; simpl. lra.
Qed.

(** Sixty quiet cycles from the initial state. *)
Lemma quiet_cycles_empty_the_set_witness :
  current_emotions (cycles (repeat (0.5, 0%nat, 102) 60) (init 0.2 100 101 0)) = [].
Proof.
  apply (quiet_cycles_empty_the_set (repeat (0.5, 0%nat, 102) 60) (init 0.2 100 101 0)).
  - apply List.Forall_forall. intros d Hd. apply repeat_spec in Hd. subst d. simpl. lra.
  - repeat constructor.
  - repeat constructor; simpl; lra.
  - rewrite repeat_length. lia.
Defined.

(** ** The influenced response *)

Lemma append_nothing (b r : string) : String.append b r = b -> r = EmptyString.
Proof.
  induction b as [|c b IH]; simpl; [auto|]. intros [= H]. now apply IH.
Qed.

(** X11.  [influence_response] returns the response unchanged exactly when no
    impulse is held; otherwise it returns the response followed by one of six
    bracketed remarks.  It never alters the text it is given. *)
Theorem influenced_response_shape (base : string) (self : EmotionalCore) (r : string)
    (Hr : influence_response base self = Py.Ok r) :
  (current_emotions self = [] -> r = base)
  /\ (current_emotions self <> [] ->
      exists remark, In remark remarks /\ r = String.append base remark)
  /\ (r = base <-> current_emotions self = []).
Proof.
  unfold influence_response, get_emotional_state in Hr.
  destruct (get_mood_bias (memory self)) as [bias|]; [|discriminate].
  destruct (get_dominant_emotion self) as [d|] eqn:Hd.
  - assert (Hne : current_emotions self <> []).
    { intros He. apply dominant_none_iff in He. congruence. }
    assert (Hremark : exists remark, In remark remarks /\ r = String.append base remark).
    { cbn [s_mood s_energy] in Hr.
      destruct (Py.ltb 0 (valence d)), (Py.ltb 0.6 (arousal d)),
               (Py.ltb 0.3 (arousal d));
        simpl in Hr; injection Hr as <-;
        eexists; (split; [|reflexivity]); simpl; tauto. }
    split; [congruence|]. split; [intros _; exact Hremark|].
    split; [|congruence].
    intros Hsame. destruct Hremark as (remark & Hin & ->).
    apply append_nothing in Hsame. subst remark.
    simpl in Hin. intuition discriminate.
  - apply dominant_none_iff in Hd. simpl in Hr. injection Hr as <-.
    split; [reflexivity|]. split; [congruence|]. split; auto.
Qed.

(** The initial state remarks on a response with optimism. *)
Lemma influenced_response_shape_witness :
  exists remark,
    In remark remarks
    /\ "I understand. [with a touch of optimism]" = String.append "I understand." remark.
Proof.
  destruct (influenced_response_shape "I understand." (init 0.2 100 101 0)
              "I understand. [with a touch of optimism]") as (_ & H & _).
  - reflexivity.
  - apply H. discriminate.
Defined.

(** ** The garden, as the persona reports it *)

Lemma py_int_at_least (x : Q) (k : Z) : inject_Z k <= x -> (k <= py_int x)%Z.
Proof.
  destruct x as [n d]. unfold Qle, py_int; simpl. intros H.
  apply Z.quot_le_lower_bound; lia.
Qed.

Lemma py_int_below (x : Q) (k : Z) : 0 <= x -> x < inject_Z k -> (py_int x < k)%Z.
Proof.
  destruct x as [n d]. unfold Qle, Qlt, py_int; simpl. intros H0 H.
  apply Z.quot_lt_upper_bound; lia.
Qed.

Lemma py_int_no_bloom (x : Q) : x < 1 -> (py_int x <= 0)%Z.
Proof.
  intros H. destruct (Qlt_le_dec x 0) as [Hneg|Hpos].
  - destruct x as [n d]. unfold Qlt, py_int in *; simpl in *.
    apply Z.quot_le_upper_bound; lia.
  - assert (py_int x < 1)%Z by (apply py_int_below; [exact Hpos | exact H]). lia.
Qed.

(** X12.  [UnifiedNexarion.update_from_garden] reports [int(complexity * 10)]
    blooms and then runs a decay cycle.  Below complexity 0.1 no stimulus
    reaches the core and only the cycle runs.  From 0.1 on joy is applied, and
    from 0.5 on it is applied at its ceiling, valence 0.9 and arousal 0.72.
    Above 0.7 awe is applied first, so awe never comes without joy at its
    ceiling.  The persona records the complexity, and without an emotional
    core nothing else happens. *)
Theorem persona_garden_update
    (complexity t_awe t_joy roll : Q) (pick : nat) (now g0 : Q) (core : EmotionalCore) :
  let self := {| UnifiedNexarion.emotional_core := Some core;
                 UnifiedNexarion.garden_complexity := g0 |} in
  let after := UnifiedNexarion.update_from_garden complexity t_awe t_joy roll pick now self in
  let absent := {| UnifiedNexarion.emotional_core := None;
                   UnifiedNexarion.garden_complexity := g0 |} in
  let awe := new_emotion t_awe "awe" 0.8 0.7 0.1 "garden_complexity" in
  UnifiedNexarion.garden_complexity after = complexity
  /\ UnifiedNexarion.update_from_garden complexity t_awe t_joy roll pick now absent
     = {| UnifiedNexarion.emotional_core := None;
          UnifiedNexarion.garden_complexity := complexity |}
  /\ (complexity < 0.1 ->
      UnifiedNexarion.emotional_core after
      = Some (process_emotional_cycle roll pick now core))
  /\ (0.1 <= complexity -> complexity <= 0.7 ->
      exists joy,
        name joy = "joy"
        /\ (0.5 <= complexity -> valence joy == 0.9 /\ arousal joy == 0.72)
        /\ UnifiedNexarion.emotional_core after
           = Some (process_emotional_cycle roll pick now
                     (_add_or_update_emotion joy core)))
  /\ (0.7 < complexity ->
      exists joy,
        name joy = "joy" /\ valence joy == 0.9 /\ arousal joy == 0.72
        /\ UnifiedNexarion.emotional_core after
           = Some (process_emotional_cycle roll pick now
                     (_add_or_update_emotion joy (_add_or_update_emotion awe core)))).
Proof.
  intros self after absent awe.
  split; [reflexivity|]. split; [reflexivity|].
  subst after self. unfold UnifiedNexarion.update_from_garden.
  cbn [UnifiedNexarion.emotional_core]. unfold update_from_garden.
  cbn [g_complexity g_blooms Py.get].
  set (blooms := py_int (complexity * 10)).
  assert (Hceiling : 0.5 <= complexity ->
            Py.min (inject_Z blooms * 0.2) 0.9 == 0.9
            /\ Py.min (inject_Z blooms * 0.2) 0.9 * 0.8 == 0.72).
  { intros Hc.
    assert (Hb : (5 <= blooms)%Z).
    { apply py_int_at_least. change (inject_Z 5) with 5. lra. }
    rewrite Zle_Qle in Hb. change (inject_Z 5) with 5 in Hb.
    unfold Py.min. ltb_cases; lra. }
  split; [|split].
  - intros Hc.
    assert (Hb : (blooms <= 0)%Z) by (apply py_int_no_bloom; lra).
    assert (E1 : Py.ltb 0.7 complexity = false) by (apply ltb_ge; lra).
    assert (E2 : (0 <? blooms)%Z = false) by (apply Z.ltb_ge; lia).
    now rewrite E1, E2.
  - intros Hlo Hhi.
    assert (Hb : (1 <= blooms)%Z).
    { apply py_int_at_least. change (inject_Z 1) with 1. lra. }
    assert (E1 : Py.ltb 0.7 complexity = false) by (apply ltb_ge; lra).
    assert (E2 : (0 <? blooms)%Z = true) by (apply Z.ltb_lt; lia).
    rewrite E1, E2. eexists. split; [|split; [|reflexivity]]; [reflexivity|].
    exact Hceiling.
  - intros Hc.
    assert (Hb : (7 <= blooms)%Z).
    { apply py_int_at_least. change (inject_Z 7) with 7. lra. }
    assert (E1 : Py.ltb 0.7 complexity = true) by (apply ltb_lt; lra).
    assert (E2 : (0 <? blooms)%Z = true) by (apply Z.ltb_lt; lia).
    rewrite E1, E2. destruct Hceiling as [Hv Ha]; [lra|].
    eexists. split; [|split; [|split; [|reflexivity]]];
      [reflexivity | exact Hv | exact Ha].
Qed.

(** ** What loading replaces and what it leaves *)

(** X13.  When the file exists and is JSON, [load_state] replaces the
    impulses held: two cores that load the same file end with the same
    impulses and the same message, whatever they held before, and with the
    same history when the load succeeds.  Loading never touches the entropy,
    the garden complexity, the memory weight or the capacity of the
    history. *)
Theorem load_replaces_what_was_held
    (filepath : string) (fs : gmap string file) (c1 c2 : EmotionalCore) (doc : file)
    (Hfile : json_load filepath fs = Py.Ok doc) :
  let after1 := load_state filepath fs c1 in
  let after2 := load_state filepath fs c2 in
  current_emotions (fst after1) = current_emotions (fst after2)
  /\ snd after1 = snd after2
  /\ (snd after1 = Py.Ok (Loaded filepath) ->
      emotional_history (memory (fst after1))
      = emotional_history (memory (fst after2)))
  /\ emotional_entropy (fst after1) = emotional_entropy c1
  /\ garden_complexity (fst after1) = garden_complexity c1
  /\ memory_weight (memory (fst after1)) = memory_weight (memory c1)
  /\ max_history (memory (fst after1)) = max_history (memory c1).
Proof.
  intros after1 after2. subst after1 after2. rewrite !load_state_cases.
  unfold json_load in Hfile.
  destruct (fs !! filepath) as [[state| |]|]; try discriminate; simpl.
  - destruct (snd (restore_all (Py.get (j_current_emotions state) []))); simpl;
      repeat split; try reflexivity. discriminate.
  - repeat split; try reflexivity. discriminate.
Qed.

(** Two different cores load the file that a third one saved. *)
Lemma load_replaces_what_was_held_witness :
  let fs := save_state "emotional_state.json" 150 (init 0.2 100 101 0) ∅ in
  let c1 := init 0.1 200 201 0 in
  let c2 := mutate (RecordFromInteraction "query" 0.8 302) (init 0.3 300 301 0) in
  current_emotions (fst (load_state "emotional_state.json" fs c1))
  = current_emotions (fst (load_state "emotional_state.json" fs c2)).
Proof.
  intros fs c1 c2.
  destruct (load_replaces_what_was_held "emotional_state.json" fs c1 c2
              (JsonObject
                 {| j_current_emotions :=
                      Some (map saved_entry (current_emotions (init 0.2 100 101 0)));
                    j_memory_history := Some [];
                    j_emotional_entropy := Some 0.2;
                    j_saved_at := Some 150 |})) as [H _].
  - reflexivity.
  - exact H.
Defined.

(** X14.  Saving again after loading writes the same impulses and the same
    history as the file that was loaded: the file loses nothing more on a
    second round.  Only the entropy written is that of the core that loaded,
    and the time of saving is the new one. *)
Theorem save_after_load_rewrites_the_file
    (self other : EmotionalCore) (filepath again : string) (now later : Q)
    (fs fs' : gmap string file)
    (Hrates : default_rates self) :
  let first := save_state filepath now self fs in
  let loaded := fst (load_state filepath first other) in
  let second := save_state again later loaded fs' in
  exists state state',
    first !! filepath = Some (JsonObject state)
    /\ second !! again = Some (JsonObject state')
    /\ j_current_emotions state' = j_current_emotions state
    /\ j_memory_history state' = j_memory_history state
    /\ j_emotional_entropy state' = Some (emotional_entropy other)
    /\ j_saved_at state' = Some later.
Proof.
  intros first loaded second. subst second first. unfold save_state.
  rewrite !lookup_insert_eq. do 2 eexists.
  split; [reflexivity|]. split; [reflexivity|].
  cbn [j_current_emotions j_memory_history j_emotional_entropy j_saved_at].
  assert (Hes : current_emotions loaded = current_emotions self).
  { subst loaded. rewrite load_state_cases. unfold save_state.
    rewrite lookup_insert_eq. cbn [j_current_emotions j_memory_history Py.get].
    now rewrite (restore_all_saved _ Hrates). }
  assert (Hh : emotional_history (memory loaded)
               = Py.last_n 20 (emotional_history (memory self))).
  { subst loaded. apply load_saved_history. }
  assert (Hu : emotional_entropy loaded = emotional_entropy other).
  { subst loaded. apply load_state_entropy. }
  rewrite Hes, Hh, Hu, last_n_last_n by lia. repeat split.
Qed.

(** The initial state after a quiet cycle, saved, loaded and saved again. *)
Lemma save_after_load_rewrites_the_file_witness :
  let self := process_emotional_cycle 0.5 0 102 (init 0.2 100 101 0) in
  let first := save_state "emotional_state.json" 103 self ∅ in
  let loaded := fst (load_state "emotional_state.json" first (init 0.3 200 201 0)) in
  exists state state',
    first !! "emotional_state.json" = Some (JsonObject state)
    /\ save_state "copy.json" 202 loaded ∅ !! "copy.json" = Some (JsonObject state')
    /\ j_current_emotions state' = j_current_emotions state.
Proof.
  intros self first loaded.
  destruct (save_after_load_rewrites_the_file self (init 0.3 200 201 0)
              "emotional_state.json" "copy.json" 103 202 ∅ ∅)
    as (state & state' & H1 & H2 & H3 & _).
  - repeat constructor.
  - exists state, state'. repeat split; assumption.
Defined.

(** ** The snapshot, read by its users *)

Lemma dominant_is_held (self : EmotionalCore) (d : EmergentEmotion) :
  get_dominant_emotion self = Some d -> In d (current_emotions self).
Proof.
  unfold get_dominant_emotion.
  destruct (current_emotions self) as [|x l]; [discriminate|]. simpl.
  intros [= <-]. apply (max_from_In score).
Qed.

(** X15.  The fields of a snapshot agree with one another: the count of
    active emotions is the length of the list of emotions, which names the
    impulses in their order; the mood is "neutral" exactly when the count is
    zero, and then the energy is "low" and the dominant emotion is reported as
    "neutral"; otherwise the dominant emotion is one of those listed. *)
Theorem snapshot_is_consistent (self : EmotionalCore) (s : emotional_state)
    (Hs : get_emotional_state self = Py.Ok s) :
  s_active_emotions s = length (s_emotions s)
  /\ map v_name (s_emotions s) = map name (current_emotions self)
  /\ (s_active_emotions s = 0%nat <-> s_mood s = "neutral")
  /\ (s_mood s = "neutral" ->
      s_energy s = "low" /\ s_dominant_emotion s = "neutral")
  /\ (s_active_emotions s <> 0%nat ->
      In (s_dominant_emotion s) (map v_name (s_emotions s)))
  /\ In (s_mood s) ["positive"; "negative"; "neutral"]
  /\ In (s_energy s) ["high"; "medium"; "low"].
Proof.
  unfold get_emotional_state in Hs.
  destruct (get_mood_bias (memory self)) as [bias|]; [|discriminate].
  injection Hs as <-. cbn [s_active_emotions s_emotions s_mood s_energy
                           s_dominant_emotion].
  assert (Hnames : map v_name (map view (current_emotions self))
                   = map name (current_emotions self)).
  { rewrite map_map. reflexivity. }
  split; [now rewrite length_map|]. split; [exact Hnames|].
  destruct (get_dominant_emotion self) as [d|] eqn:Hd.
  - pose proof (dominant_is_held self d Hd) as Hin.
    assert (Hlen : length (current_emotions self) <> 0%nat).
    { destruct (current_emotions self); [destruct Hin | discriminate]. }
    split; [|split; [|split; [|split]]].
    + split; [intros H; contradiction|].
      destruct (Py.ltb 0 (valence d)); discriminate.
    + destruct (Py.ltb 0 (valence d)); discriminate.
    + intros _. rewrite Hnames. now apply in_map.
    + destruct (Py.ltb 0 (valence d)); simpl; tauto.
    + destruct (Py.ltb 0.6 (arousal d)), (Py.ltb 0.3 (arousal d)); simpl; tauto.
  - apply dominant_none_iff in Hd. rewrite Hd. simpl.
    repeat split; auto; tauto.
Qed.

(** The snapshot of a core that holds the single impulse "joy". *)
Lemma snapshot_is_consistent_witness :
  let joy := new_emotion 102 "joy" 0.8 0.7 0.3 "garden_blooms_4" in
  let s :=
    {| s_mood := "positive"; s_energy := "high"; s_dominant_emotion := "joy";
       s_valence_bias := 0; s_emotional_entropy := 0.2; s_active_emotions := 1;
       s_emotions := [view joy] |} in
  In (s_dominant_emotion s) (map v_name (s_emotions s)).
Proof.
  intros joy s.
  destruct (snapshot_is_consistent
              (set_current_emotions [joy] (init 0.2 100 101 0)) s)
    as (_ & _ & _ & _ & H & _).
  - reflexivity.
  - apply H. discriminate.
Defined.

(** ** Starting the persona *)




(** ** What a mutation can create, and what it leaves alone *)

Lemma names_within_blend (V : list string) (e : EmergentEmotion) (v a : Q) :
  In (name e) V -> In (name (update e v a)) V.
Proof. exact (fun H => H). Qed.

Lemma names_within_add (V : list string) (stimulus : EmergentEmotion)
    (self : EmotionalCore) :
  In (name stimulus) V ->
  Forall (fun e => In (name e) V) (current_emotions self) ->
  Forall (fun e => In (name e) V)
    (current_emotions (_add_or_update_emotion stimulus self)).
Proof.
  apply (add_or_update_Forall (fun e => In (name e) V) (names_within_blend V)).
Qed.

(** X17.  A mutation never invents a name: every impulse held afterwards
    bears a name held before, or one of the names the mutation can create,
    which are awe and joy for the garden, contemplation, engagement and
    defensive for an interaction, the four fluctuations for a decay cycle, and
    the name of the stimulus applied. *)
Theorem mutations_create_known_names (m : mutation) (self : EmotionalCore) :
  Forall (fun e => In (name e) (map name (current_emotions self) ++ names_of m))
    (current_emotions (mutate m self)).
Proof.
  set (V := map name (current_emotions self) ++ names_of m).
  assert (Hheld : Forall (fun e => In (name e) V) (current_emotions self)).
  { apply List.Forall_forall. intros e He. subst V.
    apply in_app_iff. left. now apply in_map. }
  assert (Hnew : forall n, In n (names_of m) -> In n V).
  { intros n Hn. subst V. apply in_app_iff. now right. }
  clearbody V.
  destruct m as [stimulus | roll pick now | garden t_awe t_joy | kind sentiment now];
    simpl in Hnew |- *.
  - apply names_within_add; [apply Hnew; now left | exact Hheld].
  - unfold process_emotional_cycle.
    set (self1 := set_current_emotions (map decay (current_emotions self)) self).
    assert (H1 : Forall (fun e => In (name e) V) (current_emotions self1)).
    { simpl. apply List.Forall_map. exact Hheld. }
    set (self2 := if Py.ltb roll 0.1 then _ else _).
    assert (H2 : Forall (fun e => In (name e) V) (current_emotions self2)).
    { subst self2. destruct (Py.ltb roll 0.1); [|exact H1].
      unfold _add_random_fluctuation. apply names_within_add; [|exact H1].
      repeat match goal with
             | |- context [if ?b then _ else _] => destruct b
             end; apply Hnew; simpl; tauto. }
    clearbody self2.
    destruct (get_dominant_emotion self2); simpl;
      apply List.Forall_forall; intros x Hx;
      apply filter_In in Hx as [Hx _];
      revert x Hx; now apply List.Forall_forall.
  - unfold update_from_garden.
    set (self1 := if Py.ltb 0.7 _ then _ else _).
    assert (H1 : Forall (fun e => In (name e) V) (current_emotions self1)).
    { subst self1. destruct (Py.ltb 0.7 _); [|exact Hheld].
      apply names_within_add; [apply Hnew; simpl; tauto | exact Hheld]. }
    clearbody self1.
    destruct (0 <? _)%Z; [|exact H1].
    apply names_within_add; [apply Hnew; simpl; tauto | exact H1].
  - unfold update_from_interaction.
    destruct (String.eqb kind "query"); [|exact Hheld].
    apply names_within_add; [|exact Hheld].
    destruct (Py.ltb (Qabs sentiment) 0.3); [|destruct (Py.ltb 0.3 sentiment)];
      apply Hnew; simpl; tauto.
Qed.

(** X18.  Mutations leave the entropy and the garden complexity of the core
    as they are, [update_from_garden] included, which never stores the
    complexity it is given.  Only a decay cycle writes the memory, and it adds
    at most one entry, the snapshot of an impulse. *)
Theorem mutations_leave_the_rest (m : mutation) (self : EmotionalCore) :
  emotional_entropy (mutate m self) = emotional_entropy self
  /\ garden_complexity (mutate m self) = garden_complexity self
  /\ match m with
     | DecayCycle _ _ _ =>
         memory (mutate m self) = memory self
         \/ exists d, memory (mutate m self) = add_memory (memory self) d
     | _ => memory (mutate m self) = memory self
     end.
Proof.
  assert (Hadd : forall s c,
             emotional_entropy (_add_or_update_emotion s c) = emotional_entropy c
             /\ garden_complexity (_add_or_update_emotion s c) = garden_complexity c
             /\ memory (_add_or_update_emotion s c) = memory c).
  { intros s c. unfold _add_or_update_emotion.
    destruct (blend_existing s (current_emotions c)); repeat split. }
  destruct m as [stimulus | roll pick now | garden t_awe t_joy | kind sentiment now];
    simpl.
  - apply Hadd.
  - unfold process_emotional_cycle.
    set (self1 := set_current_emotions (map decay (current_emotions self)) self).
    set (self2 := if Py.ltb roll 0.1 then _ else _).
    assert (H2 : emotional_entropy self2 = emotional_entropy self
                 /\ garden_complexity self2 = garden_complexity self
                 /\ memory self2 = memory self).
    { subst self2. destruct (Py.ltb roll 0.1); [|repeat split].
      unfold _add_random_fluctuation.
      match goal with
      | |- context [_add_or_update_emotion ?s self1] =>
          destruct (Hadd s self1) as (Hu & Hg & Hm)
      end.
      rewrite Hu, Hg, Hm. repeat split. }
    destruct H2 as (Hu & Hg & Hm). clearbody self2.
    destruct (get_dominant_emotion self2) as [d|]; simpl.
    + split; [exact Hu|]. split; [exact Hg|]. right. exists d. now rewrite Hm.
    + split; [exact Hu|]. split; [exact Hg|]. now left.
  - unfold update_from_garden.
    set (self1 := if Py.ltb 0.7 _ then _ else _).
    assert (H1 : emotional_entropy self1 = emotional_entropy self
                 /\ garden_complexity self1 = garden_complexity self
                 /\ memory self1 = memory self).
    { subst self1. destruct (Py.ltb 0.7 _); [apply Hadd | repeat split]. }
    destruct H1 as (Hu & Hg & Hm). clearbody self1.
    destruct (0 <? _)%Z; [|repeat split; assumption].
    destruct (Hadd (new_emotion t_joy "joy"
                      (Py.min (inject_Z (Py.get (g_blooms garden) 0%Z) * 0.2) 0.9)
                      (Py.min (inject_Z (Py.get (g_blooms garden) 0%Z) * 0.2) 0.9 * 0.8)
                      0.3 ("garden_blooms_" +:+ pretty (Py.get (g_blooms garden) 0%Z)))
                self1) as (Hu' & Hg' & Hm').
    split; [now rewrite Hu'|]. split; [now rewrite Hg' | now rewrite Hm'].
  - unfold update_from_interaction.
    destruct (String.eqb kind "query"); [apply Hadd | repeat split].
Qed.
